(** * dependency-insight: the dependency graph introspection engine

    A shallow embedding of the three analytical commands of [src/index.js]
    ([analyzeSize] with its helper [getTotalSizeInMB], [suggestAlternatives]
    and [visualizeTree] with its helper [printDependencyTree]) and the
    properties of their observable output, followed by the commands that
    run [npm] ([execCommand], [checkOutdated], [interactiveUpdate],
    [pruneDependencies], [clearCache]), the repository address and the
    dependency list of the health command, and the dispatch of [main].

    Conventions of the embedding.
    - A JavaScript number is an exact rational ([Q]).  File sizes are
      integers, the only divisor is [1024 * 1024] and the only rounding is
      [toFixed(2)]; on the concrete inputs evaluated below the doubles of
      the program print the same two-decimal strings.
    - The string produced by [x.toFixed(2)] is represented by the integer
      number of hundredths it denotes (["3.00"] is 300).
    - The console is a list of output lines, in emission order.
    - The parsed JSON of [npm list --json] is a [value]: a string or an
      object, the latter as the list of its own enumerable entries in
      [Object.entries] order.
    - Code that can throw or leave the process runs in a small monad of
      outcomes and printed events; child processes, the JSON parser, the
      prompts and the clock are parameters.
    - The tree renderer is also given on every JSON value ([json], with
      [null], numbers, booleans and arrays) together with the exceptions
      it throws; on strings and objects it agrees with the renderer on
      [value].  [parsedOrder] gives the order in which a parsed object
      lists keys that were written in another order. *)

From Stdlib Require Import List String Ascii ZArith QArith Qround Lia Lqa.
From Stdlib Require Import Permutation Sorted Bool DecimalString.
Import ListNotations.

Set Warnings "-register-all".
Local Open Scope string_scope.
Local Open Scope list_scope.
Local Open Scope Z_scope.

(* ------------------------------------------------------------------ *)
(** ** Numbers *)

(** [x.toFixed(2)]: the integer [n] for which [n / 100 - x] is closest to
    zero, the larger [n] on a tie; the result is the decimal string of
    [n / 100], kept here as [n]. *)
Definition toFixed2 (x : Q) : Z := Qfloor (x * 100 + (1 # 2)).

(** The number denoted by a [toFixed(2)] string ([parseFloat], or the
    implicit conversion of [*]). *)
Definition ofFixed2 (n : Z) : Q := inject_Z n / 100.

(** What [getTotalSizeInMB] returns: the number [0] from its [catch]
    branch, or the string built by [toFixed(2)]. *)
Inductive mbsize : Type :=
| NumZero
| Fixed2 (hundredths : Z).

(** ToNumber of that result, as used by [dirSize * 1024 * 1024] and by
    [parseFloat(size)]. *)
Definition toNumber (r : mbsize) : Q :=
  match r with
  | NumZero => 0
  | Fixed2 n => ofFixed2 n
  end.

(* ------------------------------------------------------------------ *)
(** ** The filesystem seen by the size scan *)

(** A directory entry.  A symbolic link carries what it resolves to
    ([None] when it dangles); [Special] stands for sockets, FIFOs and
    devices. *)
Inductive node : Type :=
| File (size : Z)
| Dir (entries : list (string * node))
| DirUnreadable
| Symlink (target : option node)
| Special.

(** The part of [fs.Stats] the scan looks at. *)
Record Stats : Type := mkStats {
  isSymbolicLink : bool;
  isDirectory : bool;
  isFile : bool;
  st_size : Z
}.

(** [fs.statSync(path)]: stat(2), which follows symbolic links and so
    describes the link's target; it throws ([None]) on a dangling link.
    The [Stats] it returns never answer [true] to [isSymbolicLink]
    (only [lstatSync] does). *)
Fixpoint statSync (n : node) : option Stats :=
  match n with
  | File sz => Some (mkStats false false true sz)
  | Dir _ => Some (mkStats false true false 4096)
  | DirUnreadable => Some (mkStats false true false 4096)
  | Symlink (Some t) => statSync t
  | Symlink None => None
  | Special => Some (mkStats false false false 0)
  end.

(** [fs.existsSync(path)] *)
Definition existsSync (n : option node) : bool :=
  match n with
  | Some m => match statSync m with Some _ => true | None => false end
  | None => false
  end.

(** Console output of the size command. *)
Inductive color : Type := green | yellow | red.

Inductive sizeLine : Type :=
| Banner                                (* "Analyzing dependency sizes..." *)
| ErrorReading (path : string)          (* console.error, red *)
| WarningNotFound (dep : string)        (* console.warn, yellow *)
| Row (name : string) (c : color) (hundredths : Z)
| TotalPackages (n : nat)
| TotalSize (hundredths : Z).

(** [path.join(dirPath, file)] *)
Definition path_join (dirPath file : string) : string :=
  (dirPath ++ "/" ++ file)%string.

Definition skipped (file : string) : bool :=
  ((file =? ".") || (file =? "..") || (file =? ".git"))%string.

(** The body of the [for] loop of [getTotalSizeInMB], given the recursive
    call [self]: [None] when an exception leaves the loop. *)
Section Loop.
Variable self : string -> node -> mbsize * list sizeLine.

Fixpoint scanEntries (dirPath : string) (files : list (string * node))
         (totalSize : Q) : option Q * list sizeLine :=
  match files with
  | [] => (Some totalSize, [])
  | (file, child) :: rest =>
    if skipped file then scanEntries dirPath rest totalSize
    else
      let filePath := path_join dirPath file in
      match statSync child with
      | None => (None, [])
      | Some stats =>
        if isSymbolicLink stats then scanEntries dirPath rest totalSize
        else if isDirectory stats then
          let (dirSize, out) := self filePath child in
          let (r, out') :=
            scanEntries dirPath rest
                        (totalSize + toNumber dirSize * 1024 * 1024)%Q in
          (r, out ++ out')
        else if isFile stats then
          scanEntries dirPath rest (totalSize + inject_Z (st_size stats))%Q
        else scanEntries dirPath rest totalSize
      end
  end.
End Loop.

(** [getTotalSizeInMB(dirPath)], on the node found at [dirPath].
    [fs.readdirSync] follows a link to its target, lists a readable
    directory and throws on anything else. *)
Fixpoint getTotalSizeInMB (dirPath : string) (n : node)
  : mbsize * list sizeLine :=
  match n with
  | Dir files =>
    match scanEntries getTotalSizeInMB dirPath files 0%Q with
    | (Some totalSize, out) =>
      (Fixed2 (toFixed2 (totalSize / (1024 * 1024))), out)
    | (None, out) => (NumZero, out ++ [ErrorReading dirPath])
    end
  | Symlink (Some t) => getTotalSizeInMB dirPath t
  | _ => (NumZero, [ErrorReading dirPath])
  end.

(* ------------------------------------------------------------------ *)
(** ** The size ledger ([analyzeSize]) *)

Record pkgSize : Type := mkPkg { name : string; size : Q }.

(** [Array.prototype.sort(compare)]: a stable sort (ECMAScript 2019),
    here by insertion; [x] goes before the first [y] with
    [compare(x, y) <= 0]. *)
Section Sort.
Variable compare : pkgSize -> pkgSize -> Q.

Fixpoint insert (x : pkgSize) (l : list pkgSize) : list pkgSize :=
  match l with
  | [] => [x]
  | y :: l' =>
    if Qle_bool (compare x y) 0 then x :: y :: l' else y :: insert x l'
  end.

Fixpoint sort (l : list pkgSize) : list pkgSize :=
  match l with
  | [] => []
  | x :: l' => insert x (sort l')
  end.
End Sort.

(** [x > y] on numbers *)
Definition Qgt_bool (x y : Q) : bool := negb (Qle_bool x y).

(** The colour chosen for a row. *)
Definition rowColor (size : Q) : color :=
  if Qgt_bool size 10 then red
  else if Qgt_bool size 5 then yellow
  else green.

Section AnalyzeSize.
(** [process.cwd()] and what sits at [<cwd>/node_modules/<dep>]. *)
Variable cwd : string.
Variable node_modules : string -> option node.

(** The callback of [.map]. *)
Definition measure (dep : string) : pkgSize * list sizeLine :=
  let depPath := path_join (path_join cwd "node_modules") dep in
  match node_modules dep with
  | Some n =>
    if negb (existsSync (Some n)) then (mkPkg dep 0, [WarningNotFound dep])
    else
      let (size, out) := getTotalSizeInMB depPath n in
      (mkPkg dep (toNumber size), out)
  | None => (mkPkg dep 0, [WarningNotFound dep])
  end.

Definition packageSizes (deps : list string) : list pkgSize :=
  sort (fun a b => size b - size a)%Q
       (filter (fun pkg => Qgt_bool (size pkg) 0)
               (map (fun dep => fst (measure dep)) deps)).

Definition totalSize (deps : list string) : Q :=
  fold_left (fun sum pkg => sum + size pkg)%Q (packageSizes deps) 0%Q.

(** [analyzeSize()], for the dependency names
    [Object.keys(result.dependencies)] of a non-null [result]. *)
Definition analyzeSize (deps : list string) : list sizeLine :=
  Banner
    :: flat_map (fun dep => snd (measure dep)) deps
    ++ map (fun pkg => Row (name pkg) (rowColor (size pkg))
                           (toFixed2 (size pkg)))
           (packageSizes deps)
    ++ [TotalPackages (List.length (packageSizes deps));
        TotalSize (toFixed2 (totalSize deps))].
End AnalyzeSize.

(* ------------------------------------------------------------------ *)
(** ** Parsed JSON and the styling functions *)

Inductive value : Type :=
| VStr (s : string)
| VObj (entries : list (string * value)).

(** [v[k]] for a key that is neither an index nor ["length"]. *)
Definition get (k : string) (v : value) : option value :=
  match v with
  | VObj es =>
    (fix find (es : list (string * value)) : option value :=
       match es with
       | [] => None
       | (k', x) :: rest => if (k' =? k)%string then Some x else find rest
       end) es
  | VStr _ => None
  end.

(** [if (v[k]) f(v[k])], with [d] when the property is absent or falsy. *)
Definition whenProp {A : Type} (k : string) (f : value -> A) (d : A)
           (v : value) : A :=
  match v with
  | VObj es =>
    (fix find (es : list (string * value)) : A :=
       match es with
       | [] => d
       | (k', x) :: rest =>
         if (k' =? k)%string then
           match x with
           | VStr "" => d
           | _ => f x
           end
         else find rest
       end) es
  | VStr _ => d
  end.

(** A value inside a template literal. *)
Definition toString (v : value) : string :=
  match v with
  | VStr s => s
  | VObj _ => "[object Object]"
  end.

(** A possibly undefined value inside a template literal. *)
Definition template (o : option value) : string :=
  match o with
  | Some v => toString v
  | None => "undefined"
  end.

(** The line feed of ["...\n"]. *)
Definition nl : string := String (ascii_of_nat 10) EmptyString.

Definition decimal (n : nat) : string :=
  NilEmpty.string_of_uint (Nat.to_uint n).

Fixpoint charEntries (i : nat) (s : string) : list (string * value) :=
  match s with
  | EmptyString => []
  | String c s' => (decimal i, VStr (String c EmptyString))
                     :: charEntries (S i) s'
  end.

(** [Object.entries(v)]: an object's own entries, a string's characters
    under their indices. *)
Definition entries (v : value) : list (string * value) :=
  match v with
  | VObj es => es
  | VStr s => charEntries 0 s
  end.

(** The [chalk] functions used by the two commands. *)
Record Chalk : Type := mkChalk {
  chalk_bold : string -> string;
  chalk_green : string -> string;
  chalk_yellow : string -> string;
  chalk_blue : string -> string;
  chalk_dim : string -> string
}.

(** Styling switched off (no colour support). *)
Definition plain : Chalk :=
  mkChalk (fun s => s) (fun s => s) (fun s => s) (fun s => s) (fun s => s).

(* ------------------------------------------------------------------ *)
(** ** The alternative matcher ([suggestAlternatives]) *)

Definition largeDeps : list (string * string) :=
  [ ("moment", "date-fns"); ("luxon", "dayjs"); ("lodash", "lodash-es");
    ("ramda", "ramda-adjunct"); ("axios", "fetch");
    ("superagent", "undici"); ("string.js", "string");
    ("sprintf-js", "tiny-sprintf"); ("jquery", "vanilla JS");
    ("zepto", "vanilla JS"); ("chart.js", "chartist"); ("d3", "chart.js");
    ("validator", "is.js"); ("joi", "yup"); ("redux", "valtio");
    ("mobx", "effector"); ("moment-timezone", "timezone-mock");
    ("fullcalendar", "flatpickr"); ("animejs", "gsap");
    ("socket.io", "ws"); ("react-router", "wouter");
    ("highcharts", "chart.js"); ("plotly.js", "chartist");
    ("dropzone", "fine-uploader"); ("mathjs", "decimal.js");
    ("numeral", "vanilla JS"); ("sharp", "image-size");
    ("fabric", "konva"); ("bootstrap", "bulma");
    ("tailwindcss", "tachyons") ].

(** [largeDeps] is an object literal, so a lookup that misses its own keys
    goes on to [Object.prototype]; these are its properties, each truthy,
    with the text a template literal gives them. *)
Definition objectPrototype : list (string * string) :=
  [ ("constructor", "function Object() { [native code] }");
    ("hasOwnProperty", "function hasOwnProperty() { [native code] }");
    ("isPrototypeOf", "function isPrototypeOf() { [native code] }");
    ("propertyIsEnumerable",
     "function propertyIsEnumerable() { [native code] }");
    ("toLocaleString", "function toLocaleString() { [native code] }");
    ("toString", "function toString() { [native code] }");
    ("valueOf", "function valueOf() { [native code] }");
    ("__defineGetter__", "function __defineGetter__() { [native code] }");
    ("__defineSetter__", "function __defineSetter__() { [native code] }");
    ("__lookupGetter__", "function __lookupGetter__() { [native code] }");
    ("__lookupSetter__", "function __lookupSetter__() { [native code] }");
    ("__proto__", "[object Object]") ].

Fixpoint assoc (k : string) (table : list (string * string))
  : option string :=
  match table with
  | [] => None
  | (k', x) :: rest => if (k' =? k)%string then Some x else assoc k rest
  end.

(** [largeDeps[dep]], as the text it takes in a template literal; every
    value it can yield is truthy. *)
Definition largeDeps_get (dep : string) : option string :=
  match assoc dep largeDeps with
  | Some alt => Some alt
  | None => assoc dep objectPrototype
  end.

(** The [suggestions] array after the [forEach] over
    [Object.entries(root)]. *)
Definition suggestions (root : list (string * value)) : list string :=
  flat_map (fun '(dep, _) =>
              match largeDeps_get dep with
              | Some alt =>
                [("Consider using " ++ alt ++ " instead of " ++ dep)%string]
              | None => []
              end) root.

(** [suggestAlternatives()], where [result] is what
    [execCommand("npm ls --json")] returned ([None] for [null]) and [root]
    the entries of its [dependencies]. *)
Definition suggestAlternatives (chalk : Chalk)
           (result : option (list (string * value))) : list string :=
  chalk_blue chalk ("Suggesting lightweight alternatives..." ++ nl)%string
    :: match result with
       | Some root =>
         match suggestions root with
         | [] => [chalk_green chalk "No suggestions at the moment."]
         | msgs => map (chalk_yellow chalk) msgs
         end
       | None => []
       end.

(* ------------------------------------------------------------------ *)
(** ** The tree renderer ([visualizeTree], [printDependencyTree]) *)

(** ["  ".repeat(level)] *)
Fixpoint indentOf (level : nat) : string :=
  match level with
  | O => ""
  | S l => ("  " ++ indentOf l)%string
  end.

Section TreeRenderer.
Variable chalk : Chalk.
(** [JSON.parse(fs.readFileSync(<cwd>/node_modules/<name>/package.json))],
    [None] when either call throws. *)
Variable readManifest : string -> option value.

(** [info.version || "unknown"] *)
Definition versionOf (info : value) : string :=
  whenProp "version" toString "unknown" info.

Definition nodeLine (indent name : string) (info : value) : string :=
  (indent ++ chalk_bold chalk name ++ "@"
          ++ chalk_green chalk (versionOf info))%string.

Definition peerLine (indent : string) (entry : string * value) : string :=
  let (peer, range) := entry in
  (indent ++ "  " ++ chalk_yellow chalk "└─" ++ " "
          ++ chalk_dim chalk
               ("requires " ++ peer ++ "@" ++ toString range))%string.

(** The [try] block: the annotation lines of one node. *)
Definition peerLines (indent name : string) : list string :=
  match readManifest name with
  | Some depPackage =>
    whenProp "peerDependencies"
             (fun peers => map (peerLine indent) (entries peers))
             [] depPackage
  | None => []
  end.

(** The callback of [forEach], given the recursive call [self]. *)
Definition printEntry (self : value -> nat -> list string) (level : nat)
           (entry : string * value) : list string :=
  let indent := indentOf level in
  let (name, info) := entry in
  if (name =? "dependencies")%string then self info level
  else
    nodeLine indent name info
      :: peerLines indent name
      ++ whenProp "dependencies" (fun d => self d (level + 1)%nat) [] info.

(** [printDependencyTree(deps, level)]: the lines it logs.  The entries
    of a string are one-character strings, below which the callback
    never recurses. *)
Fixpoint printDependencyTree (deps : value) (level : nat) : list string :=
  match deps with
  | VObj es => flat_map (printEntry printDependencyTree level) es
  | VStr s =>
    flat_map (printEntry (fun _ _ => []) level) (charEntries 0 s)
  end.

(** [visualizeTree()], where [packageJson] is the project's parsed
    manifest and [result] what [execCommand("npm list --json")]
    returned. *)
Definition visualizeTree (packageJson : value) (result : option value)
  : list string :=
  chalk_blue chalk ("Visualizing dependency tree..." ++ nl)%string
    :: match result with
       | None => []
       | Some r =>
         (chalk_bold chalk (template (get "name" packageJson)) ++ "@"
            ++ chalk_green chalk (template (get "version" packageJson)))%string
           :: printDependencyTree r 0
       end.
End TreeRenderer.

(* ------------------------------------------------------------------ *)
(** ** The specification's reading, for comparison with the code *)

(** The byte count of the specification's size aggregator: entries named
    [.], [..] and [.git] are skipped, a symbolic link counts for nothing,
    a directory for its own total and a regular file for its length. *)
Fixpoint computeSize_spec (n : node) : Z :=
  match n with
  | Dir files =>
    (fix total (files : list (string * node)) : Z :=
       match files with
       | [] => 0
       | (file, child) :: rest =>
         (if skipped file then 0
          else match child with
               | File sz => sz
               | Dir _ => computeSize_spec child
               | _ => 0
               end) + total rest
       end) files
  | _ => 0
  end.

(** Directories and regular files only, every file a whole number of
    mebibytes. *)
Fixpoint wholeMB (n : node) : bool :=
  match n with
  | File sz => (0 <=? sz) && (sz mod 1048576 =? 0)
  | Dir files =>
    (fix all (files : list (string * node)) : bool :=
       match files with
       | [] => true
       | (_, child) :: rest => wholeMB child && all rest
       end) files
  | _ => false
  end.

(** The specification's package node: a name, a version that may be
    absent, children that may be absent. *)
Inductive PackageNode : Type :=
| Pkg (pname : string) (pversion : option string)
      (pchildren : option (list PackageNode)).

(** The entry of [npm list --json] that describes a package node. *)
Fixpoint encode (p : PackageNode) : string * value :=
  match p with
  | Pkg n v cs =>
    (n, VObj (match v with
              | Some s => [("version", VStr s)]
              | None => []
              end
              ++ match cs with
                 | Some l => [("dependencies", VObj (map encode l))]
                 | None => []
                 end))
  end.

Definition childrenOf (p : PackageNode) : list PackageNode :=
  match p with
  | Pkg _ _ (Some l) => l
  | Pkg _ _ None => []
  end.

(** Number of nodes of a forest. *)
Fixpoint countNodes (p : PackageNode) : nat :=
  match p with
  | Pkg _ _ cs =>
    S (match cs with
       | Some l => fold_right (fun c acc => countNodes c + acc)%nat O l
       | None => O
       end)
  end.

Definition countForest (f : list PackageNode) : nat :=
  fold_right (fun c acc => countNodes c + acc)%nat O f.

(** No package carries the name of the wrapper key. *)
Fixpoint properNames (p : PackageNode) : bool :=
  match p with
  | Pkg n _ cs =>
    negb (n =? "dependencies")%string
    && match cs with
       | Some l => forallb properNames l
       | None => true
       end
  end.

Section TreeSpec.
Variable chalk : Chalk.
Variable readManifest : string -> option value.

(** The peer dependencies a package's manifest declares. *)
Definition declaredPeers (name : string) : list (string * value) :=
  match readManifest name with
  | Some depPackage =>
    match get "peerDependencies" depPackage with
    | Some (VStr "") => []
    | Some peers => entries peers
    | None => []
    end
  | None => []
  end.

Definition displayedVersion (v : option string) : string :=
  match v with
  | Some "" => "unknown"
  | Some s => s
  | None => "unknown"
  end.

(** Pre-order rendering in the specification's words: the node's line at
    two spaces per depth, then one annotation per declared peer at the
    next depth, then the children at the next depth. *)
Fixpoint render_spec (depth : nat) (p : PackageNode) : list string :=
  match p with
  | Pkg n v cs =>
    (indentOf depth ++ chalk_bold chalk n ++ "@"
       ++ chalk_green chalk (displayedVersion v))%string
      :: map (fun '(peer, range) =>
                (indentOf (S depth) ++ chalk_yellow chalk "└─" ++ " "
                   ++ chalk_dim chalk
                        ("requires " ++ peer ++ "@" ++ toString range))%string)
             (declaredPeers n)
      ++ match cs with
         | Some l => flat_map (render_spec (S depth)) l
         | None => []
         end
  end.

Fixpoint countPeers (p : PackageNode) : nat :=
  match p with
  | Pkg n _ cs =>
    (List.length (declaredPeers n)
     + match cs with
       | Some l => fold_right (fun c acc => countPeers c + acc) O l
       | None => O
       end)%nat
  end.
End TreeSpec.

(* ------------------------------------------------------------------ *)
(** ** Auxiliary definitions and sample inputs *)

(** What a tree of whole-mebibyte files must satisfy at every directory:
    the returned string denotes the exact byte total. *)
Definition exactOn (n : node) : Prop :=
  wholeMB n = true ->
  0 <= computeSize_spec n /\
  computeSize_spec n mod 1048576 = 0 /\
  match n with
  | Dir _ =>
    forall dirPath,
      fst (getTotalSizeInMB dirPath n)
      = Fixed2 (100 * (computeSize_spec n / 1048576))
  | _ => True
  end.

(** Two regular files of one and two mebibytes in one directory. *)
Definition twoFiles : node :=
  Dir [("a.bin", File 1048576); ("b.bin", File 2097152)].

(** Three sub-directories holding 5000 bytes each. *)
Definition threeSmallDirs : node :=
  Dir [("a", Dir [("f", File 5000)]);
       ("b", Dir [("g", File 5000)]);
       ("c", Dir [("h", File 5000)])].

(** The rows of a report: name and displayed hundredths. *)
Fixpoint rowsOf (out : list sizeLine) : list (string * Z) :=
  match out with
  | [] => []
  | Row n _ h :: rest => (n, h) :: rowsOf rest
  | _ :: rest => rowsOf rest
  end.




Definition twoDecimals (p : pkgSize) : Prop :=
  exists h, (size p == ofFixed2 h)%Q.

Definition shownRow (pkg : pkgSize) : string * Z :=
  (name pkg, toFixed2 (size pkg)).

(** Two installed packages of 6000 bytes each and nothing else. *)
Definition smallPackages (dep : string) : option node :=
  if (dep =? "a")%string then Some (Dir [("index.js", File 6000)])
  else if (dep =? "b")%string then Some (Dir [("index.js", File 6000)])
  else None.

Definition countForestPeers (readManifest : string -> option value)
           (f : list PackageNode) : nat :=
  fold_right (fun c acc => countPeers readManifest c + acc)%nat O f.

(** The root line of [visualizeTree]. *)
Definition rootLine (chalk : Chalk) (packageJson : value) : string :=
  (chalk_bold chalk (template (get "name" packageJson)) ++ "@"
     ++ chalk_green chalk (template (get "version" packageJson)))%string.

(** A manifest store in which only [react-dom] declares a peer. *)
Definition sampleManifests (name : string) : option value :=
  if (name =? "react-dom")%string then
    Some (VObj [("name", VStr "react-dom");
                ("peerDependencies", VObj [("react", VStr "^18.2.0")])])
  else None.

(** [lodash] below two parents, in two versions. *)
Definition diamond : list PackageNode :=
  [Pkg "a" (Some "1.0.0") (Some [Pkg "lodash" (Some "4.17.21") None]);
   Pkg "react-dom" (Some "18.2.0") (Some [Pkg "lodash" (Some "3.10.1") None])].

(** The lines printed for one package entry: its own line, its peer
    annotations, its children one level deeper. *)
Definition entryBlock (chalk : Chalk) (readManifest : string -> option value)
           (level : nat) (name : string) (info : value) : list string :=
  nodeLine chalk (indentOf level) name info
    :: peerLines chalk readManifest (indentOf level) name
    ++ whenProp "dependencies"
         (fun d => printDependencyTree chalk readManifest d (level + 1)%nat)
         [] info.

(** The [npm list --json] tree of [diamond]. *)
Definition diamondResult : value :=
  VObj [("dependencies", VObj (map encode diamond))].

(* ------------------------------------------------------------------ *)
(** ** Further predicates on the scanned tree and on the report *)

(** No regular file, however reached, has a negative length. *)
Fixpoint nonNegative (n : node) : bool :=
  match n with
  | File sz => 0 <=? sz
  | Dir files =>
    (fix all (files : list (string * node)) : bool :=
       match files with
       | [] => true
       | (_, child) :: rest => nonNegative child && all rest
       end) files
  | Symlink (Some t) => nonNegative t
  | _ => true
  end.

Definition isRegular (e : string * node) : bool :=
  match snd e with
  | File _ => true
  | _ => false
  end.

(** An entry that is looked at and whose [statSync] throws. *)
Definition cannotStat (e : string * node) : bool :=
  negb (skipped (fst e))
  && match statSync (snd e) with Some _ => false | None => true end.

(** An error line about a path at or below [dirPath]. *)
Definition errorUnder (dirPath : string) (line : sizeLine) : Prop :=
  exists rest, line = ErrorReading (dirPath ++ rest)%string.

(** What the scan of a tree without negative lengths must satisfy. *)
Definition nonNegativeResult (n : node) : Prop :=
  nonNegative n = true ->
  forall dirPath, (0 <= toNumber (fst (getTotalSizeInMB dirPath n)))%Q.


(** One installed package of 5000 bytes. *)
Definition tinyPackage (dep : string) : option node :=
  if (dep =? "tiny")%string then Some (Dir [("index.js", File 5000)])
  else None.

(* ------------------------------------------------------------------ *)
(** ** Commands that run [npm]: console, exceptions, [execCommand] *)

(** What reaches the terminal: [console.log], [console.error] and
    [process.stdout.write]. *)
Inductive consoleEvent : Type :=
| Log (text : string)
| Error (text : string)
| Write (text : string).

(** A thrown error object: its [message], and the [stdout] and [stderr]
    that [execSync] attaches to its errors (undefined on a
    [SyntaxError]). *)
Record jsError : Type := mkError {
  message : string;
  err_stdout : option string;
  err_stderr : option string
}.

(** How a piece of code ends: normally, by an exception, or by
    [process.exit]. *)
Inductive outcome (A : Type) : Type :=
| Returns (a : A)
| Throws (error : jsError)
| Exits (code : Z).
Arguments Returns {A} a.
Arguments Throws {A} error.
Arguments Exits {A} code.

(** A computation: how it ends and what it printed. *)
Definition M (A : Type) : Type := outcome A * list consoleEvent.

Definition ret {A : Type} (a : A) : M A := (Returns a, []).

Definition bind {A B : Type} (m : M A) (f : A -> M B) : M B :=
  match m with
  | (Returns a, out) => let (r, out') := f a in (r, out ++ out')
  | (Throws e, out) => (Throws e, out)
  | (Exits c, out) => (Exits c, out)
  end.

Notation "x <- m ;; f" := (bind m (fun x => f))
  (at level 61, m at next level, right associativity).
Notation "m ;;; f" := (bind m (fun _ => f))
  (at level 61, right associativity).

Definition emit (e : consoleEvent) : M unit := (Returns tt, [e]).
Definition throw {A : Type} (e : jsError) : M A := (Throws e, []).

(** [try { body } catch (error) { handler }] *)
Definition try_catch {A : Type} (body : M A) (handler : jsError -> M A)
  : M A :=
  match body with
  | (Throws e, out) => let (r, out') := handler e in (r, out ++ out')
  | done => done
  end.

(** Whether [s] begins with [pattern]. *)
Fixpoint startsWith (pattern s : string) : bool :=
  match pattern with
  | EmptyString => true
  | String a p =>
    match s with
    | EmptyString => false
    | String b rest => Ascii.eqb a b && startsWith p rest
    end
  end.

(** [hay.includes(needle)] *)
Fixpoint includes (needle hay : string) : bool :=
  startsWith needle hay
  || match hay with
     | EmptyString => false
     | String _ rest => includes needle rest
     end.

(** A string that is defined and not empty. *)
Definition truthyText (o : option string) : bool :=
  match o with
  | Some (String _ _) => true
  | _ => false
  end.

Definition textOf (o : option string) : string :=
  match o with
  | Some s => s
  | None => "undefined"
  end.

(** What [execCommand] hands back: parsed JSON, raw output, or [null]. *)
Inductive cmdResult : Type :=
| Json (v : value)
| Text (s : string)
| Null.

(** [if (result)] *)
Definition truthyResult (r : cmdResult) : bool :=
  match r with
  | Json (VStr "") => false
  | Json _ => true
  | Text "" => false
  | Text _ => true
  | Null => false
  end.

Section Commands.
Variable chalk : Chalk.
Variable chalk_red : string -> string.
(** [execSync(command, ...)] as the [calls]-th child process of the run:
    its standard output, or the error it throws. *)
Variable execSync : nat -> string -> jsError + string.
(** [JSON.parse], on the texts whose value is a string or an object;
    [None] when it throws, then with the given message. *)
Variable JSON_parse : string -> option value.
Variable syntaxMessage : string -> string.

Definition parse (text : string) : M value :=
  match JSON_parse text with
  | Some v => ret v
  | None => throw (mkError (syntaxMessage text) None None)
  end.

Definition run (calls : nat) (command : string) : M string :=
  match execSync calls command with
  | inr stdout => ret stdout
  | inl error => throw error
  end.

Definition execCommand (calls : nat) (command : string) : M cmdResult :=
  try_catch
    (result <- run calls command ;;
     if includes "--json" command
     then v <- parse result ;; ret (Json v)
     else ret (Text result))
    (fun error =>
       let recovered :=
           if truthyText (err_stdout error) && includes "--json" command
           then try_catch (v <- parse (textOf (err_stdout error)) ;;
                           ret (Some (Json v)))
                          (fun _ => ret None)
           else ret None in
       r <- recovered ;;
       match r with
       | Some parsed => ret parsed
       | None =>
         emit (Error (chalk_red ("Error executing: " ++ command)%string)) ;;;
         emit (Error (message error)) ;;;
         (if truthyText (err_stdout error)
          then emit (Error (chalk_yellow chalk
                              ("Stdout: " ++ textOf (err_stdout error))%string))
          else ret tt) ;;;
         (if truthyText (err_stderr error)
          then emit (Error (chalk_yellow chalk
                              ("Stderr: " ++ textOf (err_stderr error))%string))
          else ret tt) ;;;
         ret Null
       end).
(** [Object.entries] of a truthy result. *)
Definition resultEntries (r : cmdResult) : list (string * value) :=
  match r with
  | Json v => entries v
  | Text s => charEntries 0 s
  | Null => []
  end.

Definition outdatedLine (entry : string * value) : consoleEvent :=
  let (dep, info) := entry in
  Log (chalk_bold chalk dep ++ ": "
         ++ chalk_red (template (get "current" info)) ++ " → "
         ++ chalk_green chalk (template (get "latest" info)) ++ " ("
         ++ chalk_yellow chalk (template (get "wanted" info)) ++ ")")%string.

(** [checkOutdated()] *)
Definition checkOutdated : M unit :=
  emit (Log (chalk_blue chalk
               ("Checking for outdated dependencies..." ++ nl)%string)) ;;;
  result <- execCommand 0 "npm outdated --json" ;;
  if truthyResult result then
    match resultEntries result with
    | [] => emit (Log (chalk_green chalk "All dependencies are up to date!"))
    | listed =>
      (Returns tt,
       Log (chalk_yellow chalk
              ("Outdated dependencies: Current → Latest (Suggested)"
                 ++ nl)%string)
           :: map outdatedLine listed)
    end
  else ret tt.

(** [importInquirer()]: the module, or the two messages and
    [process.exit(1)] when it is not installed. *)
Variable inquirerInstalled : bool.

Definition importInquirer : M unit :=
  if inquirerInstalled then ret tt
  else
    (Exits 1,
     [Error (chalk_red
               "Error: The 'inquirer' package is required but not installed.");
      Log (chalk_yellow chalk
             "Please install it using: npm install inquirer")]).

(** A choice offered by [interactiveUpdate] and the value it stands
    for. *)
Record updateTarget : Type := mkTarget {
  target_name : string;
  target_version : option value
}.

Record choice : Type := mkChoice {
  choice_name : string;
  choice_value : updateTarget
}.

Definition updateChoice (entry : string * value) : choice :=
  let (dep, info) := entry in
  mkChoice (dep ++ ": " ++ template (get "current" info) ++ " → "
                ++ template (get "latest" info))%string
           (mkTarget dep (get "latest" info)).

Definition installCommand (dep : updateTarget) : string :=
  ("npm install " ++ target_name dep ++ "@"
                  ++ template (target_version dep))%string.

(** The [for] loop over the selected packages; [calls] child processes
    have run before it. *)
Fixpoint installAll (calls : nat) (selected : list updateTarget) : M unit :=
  match selected with
  | [] => ret tt
  | dep :: rest =>
    emit (Write (chalk_yellow chalk
                   ("Installing " ++ target_name dep ++ "@"
                      ++ template (target_version dep) ++ "... ")%string)) ;;;
    try_catch
      (execCommand calls (installCommand dep) ;;;
       emit (Log (chalk_green chalk "✓")))
      (fun error =>
         emit (Log (chalk_red "✗")) ;;;
         emit (Log (chalk_red ("Error updating " ++ target_name dep ++ ": "
                                 ++ message error)%string))) ;;;
    installAll (S calls) rest
  end.

(** What the user ticks in the checkbox prompt, and the seconds the
    clock measures, printed with one decimal. *)
Variable promptCheckbox : list choice -> list updateTarget.
Variable duration : string.

(** [interactiveUpdate()] *)
Definition interactiveUpdate : M unit :=
  importInquirer ;;;
  outdated <- execCommand 0 "npm outdated --json" ;;
  if negb (truthyResult outdated)
     || Nat.eqb (List.length (resultEntries outdated)) 0
  then emit (Log (chalk_green chalk "All dependencies are up to date!"))
  else
    let choices := map updateChoice (resultEntries outdated) in
    let selected := promptCheckbox choices in
    match selected with
    | [] => emit (Log (chalk_yellow chalk "No packages selected for update."))
    | _ =>
      emit (Log (chalk_blue chalk
                   (nl ++ "Updating dependencies..." ++ nl)%string)) ;;;
      installAll 1 selected ;;;
      emit (Log (chalk_green chalk
                   (nl ++ "✨ Successfully updated "
                       ++ decimal (List.length selected)
                       ++ " package(s) in " ++ duration ++ "s")%string))
    end.

(** [clearCache()], where [confirmed] is the answer to the prompt. *)
Definition clearCache (confirmed : bool) : M unit :=
  importInquirer ;;;
  emit (Log (chalk_yellow chalk
               ("Warning: This will clear your npm cache completely."
                  ++ nl)%string)) ;;;
  if confirmed then
    emit (Log (chalk_blue chalk (nl ++ "Clearing npm cache...")%string)) ;;;
    execCommand 0 "npm cache clean --force" ;;;
    emit (Log (chalk_green chalk "✨ Successfully cleared npm cache"))
  else
    emit (Log (chalk_yellow chalk (nl ++ "Operation aborted")%string)).
End Commands.

Definition isError (e : consoleEvent) : Prop :=
  match e with
  | Error _ => True
  | _ => False
  end.

Definition isLog (e : consoleEvent) : bool :=
  match e with
  | Log _ => true
  | _ => false
  end.

(* ------------------------------------------------------------------ *)
(** ** The prune command *)

(** A choice offered by [pruneDependencies]. *)
Record pruneChoice : Type := mkPruneChoice {
  prune_name : string;
  prune_value : string;
  prune_type : string
}.

Section Prune.
Variable chalk : Chalk.
Variable chalk_red : string -> string.
Variable execSync : nat -> string -> jsError + string.
Variable JSON_parse : string -> option value.
Variable syntaxMessage : string -> string.
Variable inquirerInstalled : bool.
(** The text of [package.json] ([None] when the file does not exist),
    what [depcheck] finds unused, the answer to the confirmation, the
    packages ticked and the seconds measured. *)
Variable packageJsonText : option string.
Variable unusedDeps unusedDevDeps : list string.
Variable shouldUninstall : bool.
Variable promptNames : list pruneChoice -> list string.
Variable duration : string.

Fixpoint emitAll (events : list consoleEvent) : M unit :=
  match events with
  | [] => ret tt
  | e :: rest => emit e ;;; emitAll rest
  end.

Definition pruneChoices : list pruneChoice :=
  map (fun dep => mkPruneChoice dep dep "prod") unusedDeps
  ++ map (fun dep => mkPruneChoice (dep ++ " (dev)")%string dep "dev")
         unusedDevDeps.

(** The [for] loop over the selected packages. *)
Fixpoint uninstallAll (calls : nat) (selected : list string) : M unit :=
  match selected with
  | [] => ret tt
  | dep :: rest =>
    emit (Write (chalk_yellow chalk
                   ("Uninstalling " ++ dep ++ "... ")%string)) ;;;
    try_catch
      (execCommand chalk chalk_red execSync JSON_parse syntaxMessage
                   calls ("npm uninstall " ++ dep)%string ;;;
       emit (Log (chalk_green chalk "✓")))
      (fun error =>
         emit (Log (chalk_red "✗")) ;;;
         emit (Log (chalk_red ("Error uninstalling " ++ dep ++ ": "
                                 ++ message error)%string))) ;;;
    uninstallAll (S calls) rest
  end.

(** [pruneDependencies()], with the callback of [depcheck] run in
    place. *)
Definition pruneDependencies : M unit :=
  emit (Log (chalk_blue chalk
               ("Checking for unused dependencies..." ++ nl)%string)) ;;;
  match packageJsonText with
  | None =>
    emit (Error (chalk_red
                   "No package.json found in the current directory!"))
  | Some text =>
    parse JSON_parse syntaxMessage text ;;;
    emit (Log (chalk_yellow chalk "Running analysis...")) ;;;
    match unusedDeps ++ unusedDevDeps with
    | [] => emit (Log (chalk_green chalk "No unused dependencies found!"))
    | _ =>
      emit (Log (chalk_red ("Unused dependencies found:" ++ nl)%string)) ;;;
      emitAll (map (fun dep => Log (chalk_red ("- " ++ dep)%string))
                   unusedDeps) ;;;
      emitAll (map (fun dep =>
                      Log (chalk_red ("- " ++ dep ++ " (dev)")%string))
                   unusedDevDeps) ;;;
      importInquirer chalk chalk_red inquirerInstalled ;;;
      if shouldUninstall then
        match promptNames pruneChoices with
        | [] =>
          emit (Log (chalk_yellow chalk
                       (nl ++ "No packages selected for uninstallation."
                       )%string))
        | selected =>
          emit (Log (chalk_blue chalk
                       (nl ++ "Uninstalling dependencies..." ++ nl)%string)) ;;;
          uninstallAll 0 selected ;;;
          emit (Log (chalk_green chalk
                       (nl ++ "✨ Successfully uninstalled "
                           ++ decimal (List.length selected)
                           ++ " package(s) in " ++ duration ++ "s")%string))
        end
      else ret tt
    end
  end.
End Prune.

(* ------------------------------------------------------------------ *)
(** ** The health command: repository address and dependency list *)

Fixpoint dropChars (n : nat) (s : string) : string :=
  match n, s with
  | O, _ => s
  | S n', String _ rest => dropChars n' rest
  | S _, EmptyString => EmptyString
  end.

(** [s.replace(pattern, replacement)] for a string pattern and a
    replacement without [$]: the first occurrence only. *)
Fixpoint replace (pattern replacement s : string) : string :=
  if startsWith pattern s
  then (replacement ++ dropChars (String.length pattern) s)%string
  else match s with
       | EmptyString => EmptyString
       | String c rest => String c (replace pattern replacement rest)
       end.

(** The address [checkGitHub] asks for the statistics of a package,
    from its parsed manifest; [None] when the function returns [null]
    before any request (no repository, or a [repoUrl] that is no string,
    whose [replace] throws into the [catch]). *)
Definition githubApiUrl (pkgJson : value) : option string :=
  match get "repository" pkgJson with
  | None => None
  | Some repository =>
    let repoUrl :=
        match get "url" repository with
        | Some (VStr "") => repository
        | Some url => url
        | None => repository
        end in
    match repoUrl with
    | VStr "" => None
    | VStr s =>
      let githubUrl :=
          replace "git:" "https:" (replace ".git" "" (replace "git+" "" s)) in
      Some (replace "github.com" "api.github.com/repos" githubUrl)
    | VObj _ => None
    end
  end.

Fixpoint hasChar (x : ascii) (s : string) : bool :=
  match s with
  | EmptyString => false
  | String c rest => Ascii.eqb c x || hasChar x rest
  end.

(** [obj[k] = v] on an object kept as its entries. *)
Fixpoint objSet (k : string) (v : value) (es : list (string * value))
  : list (string * value) :=
  match es with
  | [] => [(k, v)]
  | (k', x) :: rest =>
    if (k' =? k)%string then (k', v) :: rest else (k', x) :: objSet k v rest
  end.

(** [{...target, ...source}] *)
Definition spread (target source : list (string * value))
  : list (string * value) :=
  fold_left (fun obj e => objSet (fst e) (snd e) obj) source target.

Definition propertyEntries (o : option value) : list (string * value) :=
  match o with
  | Some v => entries v
  | None => []
  end.

(** The [dependencies] object that [checkHealth] walks through. *)
Definition healthDependencies (packageJson : value)
  : list (string * value) :=
  spread (spread [] (propertyEntries (get "dependencies" packageJson)))
         (propertyEntries (get "devDependencies" packageJson)).

(* ------------------------------------------------------------------ *)
(** ** The command line ([main]) *)

Inductive command : Type :=
| CmdAudit | CmdOutdated | CmdPrune | CmdTree | CmdSuggest | CmdSize
| CmdHealth | CmdUpdate | CmdClearCache | CmdUsage.

(** The [switch] of [main] on [args[0]] ([None] when there is no
    argument). *)
Definition dispatch (arg : option string) : command :=
  match arg with
  | None => CmdUsage
  | Some a =>
    if (a =? "audit")%string then CmdAudit
    else if (a =? "outdated")%string then CmdOutdated
    else if (a =? "prune")%string then CmdPrune
    else if (a =? "tree")%string then CmdTree
    else if (a =? "suggest")%string then CmdSuggest
    else if (a =? "size")%string then CmdSize
    else if (a =? "health")%string then CmdHealth
    else if (a =? "update")%string then CmdUpdate
    else if (a =? "clear-cache")%string then CmdClearCache
    else CmdUsage
  end.

(** The lines of the [default] case, after the title and [Usage:]. *)
Definition usageLines : list string :=
  [ "  audit       - Audit dependencies for vulnerabilities";
    "  outdated    - Check for outdated dependencies";
    "  update      - Interactive update for dependencies";
    "  prune       - Check for unused dependencies";
    "  tree        - Visualize dependency tree";
    "  suggest     - Suggest lightweight alternatives for heavy dependencies";
    "  size        - Analyze bundle size";
    "  health      - Check project health";
    "  clear-cache - Clear npm cache" ].

Fixpoint dropSpaces (s : string) : string :=
  match s with
  | String " " rest => dropSpaces rest
  | _ => s
  end.

Fixpoint untilSpace (s : string) : string :=
  match s with
  | EmptyString => EmptyString
  | String " " _ => EmptyString
  | String c rest => String c (untilSpace rest)
  end.

(** The command a usage line documents: its first word. *)
Definition documented (line : string) : string :=
  untilSpace (dropSpaces line).

(* ------------------------------------------------------------------ *)
(** ** A sample run of [npm] *)

(** The double quote. *)
Definition dq : string := String (ascii_of_nat 34) EmptyString.

(** The report of [npm outdated --json] about one package. *)
Definition outdatedText : string :=
  ("{" ++ dq ++ "lodash" ++ dq ++ ":{"
       ++ dq ++ "current" ++ dq ++ ":" ++ dq ++ "4.17.15" ++ dq ++ ","
       ++ dq ++ "latest" ++ dq ++ ":" ++ dq ++ "4.17.21" ++ dq
       ++ "}}")%string.

Definition outdatedValue : value :=
  VObj [("lodash", VObj [("current", VStr "4.17.15");
                         ("latest", VStr "4.17.21")])].

(** [npm outdated] has something to report and exits with an error;
    every other command fails for want of a network. *)
Definition sampleExecSync (calls : nat) (command : string)
  : jsError + string :=
  if (command =? "npm outdated --json")%string then
    inl (mkError "Command failed: npm outdated --json"
                 (Some outdatedText) (Some ""))
  else if (command =? "npm --version")%string then inr "10.2.4"
  else
    inl (mkError ("Command failed: " ++ command)%string
                 (Some "") (Some "npm ERR! network")).

Definition sampleParse (text : string) : option value :=
  if (text =? outdatedText)%string then Some outdatedValue
  else if (text =? "{}")%string then Some (VObj [])
  else None.

Definition sampleMessage (text : string) : string :=
  "Unexpected token in JSON at position 0".

(** The user ticks every choice. *)
Definition tickAll (choices : list choice) : list updateTarget :=
  map choice_value choices.

(** A manifest that lists [jest] twice. *)
Definition sampleManifest : value :=
  VObj [("name", VStr "demo");
        ("dependencies",
         VObj [("lodash", VStr "^4.17.21"); ("jest", VStr "^28.0.0")]);
        ("devDependencies", VObj [("jest", VStr "^29.7.0")])].

(* ------------------------------------------------------------------ *)
(** ** Key order of a parsed object *)

Definition isDigit (c : ascii) : bool :=
  let n := nat_of_ascii c in (48 <=? n)%nat && (n <=? 57)%nat.

Fixpoint allDigits (s : string) : bool :=
  match s with
  | EmptyString => true
  | String c rest => isDigit c && allDigits rest
  end.

Fixpoint decimalValue (acc : N) (s : string) : N :=
  match s with
  | EmptyString => acc
  | String c rest =>
    decimalValue (10 * acc + N.of_nat (nat_of_ascii c - 48))%N rest
  end.

(** The array index a property key stands for, if any: a decimal numeral
    without a leading zero (or [0] itself) below [2^32 - 1]. *)
Definition arrayIndex (k : string) : option N :=
  match k with
  | EmptyString => None
  | String "0" EmptyString => Some 0%N
  | String "0" _ => None
  | String _ _ =>
    if allDigits k && (String.length k <=? 10)%nat
       && (decimalValue 0 k <=? 4294967294)%N
    then Some (decimalValue 0 k)
    else None
  end.

Fixpoint insertIndex (i : N) (e : string * value)
         (l : list (N * (string * value))) : list (N * (string * value)) :=
  match l with
  | [] => [(i, e)]
  | (j, e') :: rest =>
    if (i <? j)%N then (i, e) :: (j, e') :: rest
    else (j, e') :: insertIndex i e rest
  end.

(** The integer-keyed entries, in ascending order of their index. *)
Fixpoint indexEntries (es : list (string * value))
  : list (N * (string * value)) :=
  match es with
  | [] => []
  | e :: rest =>
    match arrayIndex (fst e) with
    | Some i => insertIndex i e (indexEntries rest)
    | None => indexEntries rest
    end
  end.

Definition isIndexKey (e : string * value) : bool :=
  match arrayIndex (fst e) with Some _ => true | None => false end.

(** The own keys of the object that [JSON.parse] builds from entries
    written in the given order (keys distinct): the array indices first,
    ascending, then the other keys as written. *)
Definition ownOrder (written : list (string * value))
  : list (string * value) :=
  map snd (indexEntries written)
  ++ filter (fun e => negb (isIndexKey e)) written.

(** The value [JSON.parse] gives for a tree written in the given order,
    as [Object.entries] lists it at every level. *)
Fixpoint parsedOrder (v : value) : value :=
  match v with
  | VStr s => VStr s
  | VObj es => VObj (ownOrder (map (fun e => (fst e, parsedOrder (snd e))) es))
  end.

(** No key of the tree is an array index. *)
Fixpoint noIndexKeys (v : value) : bool :=
  match v with
  | VStr _ => true
  | VObj es =>
    forallb (fun e => negb (isIndexKey e) && noIndexKeys (snd e)) es
  end.

(** What [npm list --json] writes for a project with the dependencies
    [b] and [1], in that order. *)
Definition reportedTree : value :=
  VObj [("dependencies",
         VObj [("b", VObj [("version", VStr "1.0.0")]);
               ("1", VObj [("version", VStr "2.0.0")])])].

(** A project whose one dependency of three is itself named
    [dependencies]. *)
Definition collidingTree : value :=
  VObj [("dependencies",
         VObj [("a", VObj [("version", VStr "2.0.0")]);
               ("dependencies", VObj [("version", VStr "1.0.0")]);
               ("c", VObj [("version", VStr "3.0.0")])])].

Definition demoManifest : value :=
  VObj [("name", VStr "demo"); ("version", VStr "0.1.0")].

(** Installed packages of exactly 5 MiB, exactly 10 MiB, one byte more,
    and 10.01 MiB rounded up to a byte. *)
Definition tierPackages (dep : string) : option node :=
  if (dep =? "five")%string then Some (Dir [("a.bin", File 5242880)])
  else if (dep =? "ten")%string then Some (Dir [("a.bin", File 10485760)])
  else if (dep =? "over")%string then Some (Dir [("a.bin", File 10485761)])
  else if (dep =? "more")%string then Some (Dir [("a.bin", File 10496246)])
  else None.

(* ------------------------------------------------------------------ *)
(** ** The tree renderer on any JSON value, with its exceptions *)

(** A parsed JSON value.  A number carries the text [String] gives it
    and whether it differs from zero. *)
Inductive json : Type :=
| JNull
| JBool (b : bool)
| JNum (shown : string) (nonzero : bool)
| JStr (s : string)
| JArr (items : list json)
| JObj (fields : list (string * json)).

Definition jtruthy (v : json) : bool :=
  match v with
  | JNull => false
  | JBool b => b
  | JNum _ nonzero => nonzero
  | JStr "" => false
  | JStr _ => true
  | JArr _ => true
  | JObj _ => true
  end.

(** [String(v)], which is also what a template literal and [chalk]
    make of [v]; an array joins its items with commas, a [null] item
    giving nothing. *)
Fixpoint jshow (v : json) : string :=
  match v with
  | JNull => "null"
  | JBool true => "true"
  | JBool false => "false"
  | JNum shown _ => shown
  | JStr s => s
  | JArr items =>
    (fix join (items : list json) : string :=
       match items with
       | [] => ""
       | x :: rest =>
         let item := match x with JNull => "" | _ => jshow x end in
         match rest with
         | [] => item
         | _ => (item ++ "," ++ join rest)%string
         end
       end) items
  | JObj _ => "[object Object]"
  end.

(** [if (v[k]) f(v[k])] for a [v] that is not [null] and a key that is
    neither an index nor [length]; [d] when the property is absent or
    falsy. *)
Definition jwhen {A : Type} (k : string) (f : json -> A) (d : A)
           (v : json) : A :=
  match v with
  | JObj fields =>
    (fix find (fields : list (string * json)) : A :=
       match fields with
       | [] => d
       | (k', x) :: rest =>
         if (k' =? k)%string then (if jtruthy x then f x else d)
         else find rest
       end) fields
  | _ => d
  end.

Fixpoint jcharEntries (i : nat) (s : string) : list (string * json) :=
  match s with
  | EmptyString => []
  | String c s' => (decimal i, JStr (String c EmptyString))
                     :: jcharEntries (S i) s'
  end.

Fixpoint jitemEntries (i : nat) (items : list json)
  : list (string * json) :=
  match items with
  | [] => []
  | x :: rest => (decimal i, x) :: jitemEntries (S i) rest
  end.

(** [Object.entries(v)] for a [v] that is not [null]. *)
Definition jentries (v : json) : list (string * json) :=
  match v with
  | JStr s => jcharEntries 0 s
  | JArr items => jitemEntries 0 items
  | JObj fields => fields
  | _ => []
  end.

Definition typeError (message : string) : jsError :=
  mkError message None None.

(** [list.forEach(f)], which an exception leaves at once. *)
Section ForEach.
Variable A : Type.
Variable f : A -> M unit.

Fixpoint forEach (l : list A) : M unit :=
  match l with
  | [] => ret tt
  | x :: rest => f x ;;; forEach rest
  end.
End ForEach.
Arguments forEach {A} f l.

Section ForEachItem.
Variable f : string * json -> M unit.

(** The same over the items of an array, from index [i] on. *)
Fixpoint forEachItem (i : nat) (items : list json) : M unit :=
  match items with
  | [] => ret tt
  | x :: rest => f (decimal i, x) ;;; forEachItem (S i) rest
  end.
End ForEachItem.

Section TreeRendererJ.
Variable chalk : Chalk.
(** The parsed manifest at [node_modules/<name>/package.json], [None]
    when reading or parsing throws. *)
Variable readManifestJ : string -> option json.

Definition jversionOf (info : json) : string :=
  jwhen "version" jshow "unknown" info.

Definition jnodeLine (indent name : string) (info : json) : string :=
  (indent ++ chalk_bold chalk name ++ "@"
          ++ chalk_green chalk (jversionOf info))%string.

Definition jpeerLine (indent : string) (entry : string * json) : string :=
  let (peer, range) := entry in
  (indent ++ "  " ++ chalk_yellow chalk "└─" ++ " "
          ++ chalk_dim chalk
               ("requires " ++ peer ++ "@" ++ jshow range))%string.

(** The [try] block; a [null] manifest throws into the empty [catch]. *)
Definition jpeerLines (indent name : string) : list string :=
  match readManifestJ name with
  | Some depPackage =>
    jwhen "peerDependencies"
          (fun peers => map (jpeerLine indent) (jentries peers))
          [] depPackage
  | None => []
  end.

(** The callback of [forEach]; reading [info.version] throws when
    [info] is [null]. *)
Definition jprintEntry (self : json -> nat -> M unit) (level : nat)
           (entry : string * json) : M unit :=
  let indent := indentOf level in
  let (name, info) := entry in
  if (name =? "dependencies")%string then self info level
  else
    match info with
    | JNull =>
      throw (typeError "Cannot read properties of null (reading 'version')")
    | _ =>
      emit (Log (jnodeLine indent name info)) ;;;
      emitAll (map Log (jpeerLines indent name)) ;;;
      jwhen "dependencies" (fun d => self d (level + 1)%nat) (ret tt) info
    end.

(** [printDependencyTree(deps, level)]; [Object.entries(null)] throws. *)
Fixpoint jprintDependencyTree (deps : json) (level : nat) : M unit :=
  match deps with
  | JNull => throw (typeError "Cannot convert undefined or null to object")
  | JBool _ => ret tt
  | JNum _ _ => ret tt
  | JStr s => forEach (jprintEntry (fun _ _ => ret tt) level)
                      (jcharEntries 0 s)
  | JArr items => forEachItem (jprintEntry jprintDependencyTree level)
                              0 items
  | JObj fields => forEach (jprintEntry jprintDependencyTree level) fields
  end.

(** [${chalk.bold(packageJson.name)}] and the like, for a manifest that
    is not [null]. *)
Definition jfieldText (k : string) (v : json) : string :=
  match v with
  | JObj fields =>
    (fix find (fields : list (string * json)) : string :=
       match fields with
       | [] => "undefined"
       | (k', x) :: rest => if (k' =? k)%string then jshow x else find rest
       end) fields
  | _ => "undefined"
  end.

(** [visualizeTree()], where [packageJson] is the parsed manifest of the
    project and [result] what [execCommand("npm list --json")]
    returned. *)
Definition jvisualizeTree (packageJson result : json) : M unit :=
  emit (Log (chalk_blue chalk
               ("Visualizing dependency tree..." ++ nl)%string)) ;;;
  if negb (jtruthy result) then ret tt
  else
    match packageJson with
    | JNull =>
      throw (typeError "Cannot read properties of null (reading 'name')")
    | _ =>
      emit (Log (chalk_bold chalk (jfieldText "name" packageJson) ++ "@"
                   ++ chalk_green chalk (jfieldText "version" packageJson)
                )%string) ;;;
      jprintDependencyTree result 0
    end.
End TreeRendererJ.

(** A value of the string and object fragment, as JSON. *)
Fixpoint inject (v : value) : json :=
  match v with
  | VStr s => JStr s
  | VObj es => JObj (map (fun e => (fst e, inject (snd e))) es)
  end.


(** A tree in which the second of three dependencies is [null]. *)
Definition nullEntryTree : json :=
  JObj [("dependencies",
         JObj [("a", JObj [("version", JStr "1.0.0")]);
               ("b", JNull);
               ("c", JObj [("version", JStr "3.0.0")])])].

Definition jdemoManifest : json :=
  JObj [("name", JStr "demo"); ("version", JStr "0.1.0")].


(** A property of a value and of every value below it. *)
Fixpoint deeply (P : value -> Prop) (v : value) : Prop :=
  P v /\ match v with
         | VStr _ => True
         | VObj es =>
           (fix all (es : list (string * value)) : Prop :=
              match es with
              | [] => True
              | e :: rest => deeply P (snd e) /\ all rest
              end) es
         end.




(* ------------------------------------------------------------------ *)
(** ** Rounding to two decimals *)

Lemma Qfloor_half (n : Z) : Qfloor (inject_Z n + (1 # 2)) = n.
Proof.
  assert (E : (inject_Z n + (1 # 2) == (2 * n + 1) # 2)%Q).
  { unfold Qeq, Qplus, inject_Z; cbn [Qnum Qden]. lia. }
  rewrite E. unfold Qfloor.
  symmetry. apply Z.div_unique with (r := 1); lia.
Qed.

Lemma toFixed2_eq (x : Q) (n : Z) : (x == ofFixed2 n)%Q -> toFixed2 x = n.
Proof.
  intros E. unfold toFixed2.
  assert (E' : (x * 100 + (1 # 2) == inject_Z n + (1 # 2))%Q).
  { rewrite E. unfold ofFixed2. field. }
  rewrite E'. apply Qfloor_half.
Qed.

Lemma toFixed2_ofFixed2 (n : Z) : toFixed2 (ofFixed2 n) = n.
Proof. apply toFixed2_eq. reflexivity. Qed.

Lemma toFixed2_comp (x y : Q) : (x == y)%Q -> toFixed2 x = toFixed2 y.
Proof. intros E. unfold toFixed2. rewrite E. reflexivity. Qed.

(** A whole number of mebibytes shows as that number with two zero
    decimals. *)
Lemma toFixed2_wholeMB (q : Q) (k : Z) :
  (q == inject_Z (k * 1048576))%Q ->
  toFixed2 (q / (1024 * 1024)) = 100 * k.
Proof.
  intros E. apply toFixed2_eq. rewrite E. unfold ofFixed2.
  rewrite !inject_Z_mult. field.
Qed.

(* ------------------------------------------------------------------ *)
(** ** Induction on filesystem trees *)

Section NodeInd.
Variable P : node -> Prop.
Hypothesis HFile : forall sz, P (File sz).
Hypothesis HDir :
  forall files, Forall (fun e => P (snd e)) files -> P (Dir files).
Hypothesis HUnreadable : P DirUnreadable.
Hypothesis HLink : forall t, P t -> P (Symlink (Some t)).
Hypothesis HDangling : P (Symlink None).
Hypothesis HSpecial : P Special.

Lemma node_induction (n : node) : P n.
Proof.
  revert n. fix IH 1. intros [sz | files | | [t |] |].
  - apply HFile.
  - apply HDir. induction files as [| e r IHr]; constructor;
      [apply IH | exact IHr].
  - apply HUnreadable.
  - apply HLink, IH.
  - apply HDangling.
  - apply HSpecial.
Qed.
End NodeInd.

(* ------------------------------------------------------------------ *)
(** ** The size aggregator *)

Lemma computeSize_spec_cons file child rest :
  computeSize_spec (Dir ((file, child) :: rest)) =
  (if skipped file then 0
   else match child with
        | File sz => sz
        | Dir _ => computeSize_spec child
        | _ => 0
        end) + computeSize_spec (Dir rest).
Proof. reflexivity. Qed.

Lemma wholeMB_cons file child rest :
  wholeMB (Dir ((file, child) :: rest)) = wholeMB child && wholeMB (Dir rest).
Proof. reflexivity. Qed.

Lemma scanEntries_wholeMB dirPath files :
  Forall (fun e => exactOn (snd e)) files ->
  wholeMB (Dir files) = true ->
  0 <= computeSize_spec (Dir files) /\
  computeSize_spec (Dir files) mod 1048576 = 0 /\
  forall acc, exists q,
      fst (scanEntries getTotalSizeInMB dirPath files acc) = Some q /\
      (q == acc + inject_Z (computeSize_spec (Dir files)))%Q.
Proof.
  induction 1 as [| [file child] rest Hc _ IH]; intros W.
  - split; [simpl; lia | split; [reflexivity |]].
    intros acc. exists acc. split; [reflexivity | simpl; ring].
  - rewrite wholeMB_cons in W. apply andb_true_iff in W. destruct W as [Wc Wr].
    destruct (IH Wr) as (Hpos & Hmod & Hscan). clear IH.
    simpl in Hc. specialize (Hc Wc). destruct Hc as (Cpos & Cmod & Cdir).
    rewrite computeSize_spec_cons.
    destruct child as [sz | sub | | t |]; try discriminate Wc.
    + (* a regular file *)
      simpl in Wc. apply andb_true_iff in Wc. destruct Wc as [Wp Wm].
      apply Z.leb_le in Wp. apply Z.eqb_eq in Wm.
      cbn [scanEntries statSync]. destruct (skipped file).
      * split; [simpl; assumption | split; [simpl; assumption |]].
        intros acc. destruct (Hscan acc) as (q & E & Eq). exists q.
        split; [exact E |]. rewrite Eq. simpl. reflexivity.
      * split; [lia | split].
        { rewrite Z.add_mod by lia. rewrite Wm, Hmod. reflexivity. }
        intros acc. cbn [isSymbolicLink isDirectory isFile st_size].
        destruct (Hscan (acc + inject_Z sz)%Q) as (q & E & Eq). exists q.
        split; [exact E |]. rewrite Eq, inject_Z_plus. ring.
    + (* a sub-directory *)
      cbn [scanEntries statSync]. destruct (skipped file).
      * split; [simpl; assumption | split; [simpl; assumption |]].
        intros acc. destruct (Hscan acc) as (q & E & Eq). exists q.
        split; [exact E |]. rewrite Eq. simpl. reflexivity.
      * split; [lia | split].
        { rewrite Z.add_mod by lia. rewrite Cmod, Hmod. reflexivity. }
        intros acc. cbn [isSymbolicLink isDirectory isFile st_size].
        specialize (Cdir (path_join dirPath file)).
        destruct (getTotalSizeInMB (path_join dirPath file) (Dir sub))
          as [dirSize out] eqn:Eg.
        cbn [fst] in Cdir. subst dirSize.
        set (acc' := (acc + _ * 1024 * 1024)%Q).
        destruct (Hscan acc') as (q & E & Eq).
        destruct (scanEntries getTotalSizeInMB dirPath rest acc')
          as [r out'] eqn:Es.
        cbn [fst] in E |- *. subst r. exists q. split; [reflexivity |].
        rewrite Eq. subst acc'. rewrite inject_Z_plus.
        set (B := computeSize_spec (Dir sub)) in *.
        assert (EB : B = B / 1048576 * 1048576).
        { pose proof (Z.div_mod B 1048576). lia. }
        rewrite EB at 2. rewrite inject_Z_mult. unfold toNumber, ofFixed2.
        rewrite inject_Z_mult. field.
Qed.

Lemma getTotalSizeInMB_wholeMB (n : node) : exactOn n.
Proof.
  induction n as [sz | files IH | | t _ | |] using node_induction;
    intros W; try discriminate W.
  - simpl in W. apply andb_true_iff in W. destruct W as [Wp Wm].
    apply Z.leb_le in Wp. apply Z.eqb_eq in Wm. simpl.
    split; [lia | split; [reflexivity | exact I]].
  - destruct (scanEntries_wholeMB "" files IH W) as (Hpos & Hmod & _).
    split; [assumption | split; [assumption |]].
    intros dirPath.
    destruct (scanEntries_wholeMB dirPath files IH W) as (_ & _ & Hscan).
    destruct (Hscan 0%Q) as (q & E & Eq).
    cbn [getTotalSizeInMB].
    destruct (scanEntries getTotalSizeInMB dirPath files 0) as [r out].
    cbn [fst] in E |- *. subst r. cbn [fst]. f_equal.
    apply toFixed2_wholeMB. rewrite Eq.
    pose proof (Z.div_mod (computeSize_spec (Dir files)) 1048576).
    replace (computeSize_spec (Dir files) / 1048576 * 1048576)
      with (computeSize_spec (Dir files)) by lia.
    ring.
Qed.

(** The [Stats] of [statSync] never describe a symbolic link, so the
    [continue] of the [isSymbolicLink()] test is never taken. *)
Lemma statSync_not_link (n : node) (stats : Stats) :
  statSync n = Some stats -> isSymbolicLink stats = false.
Proof.
  induction n as [sz | files _ | | t IH | |] using node_induction;
    simpl; intros E; try (injection E as <-; reflexivity); auto.
  discriminate E.
Qed.

(** C1, as amended: [getTotalSizeInMB] gives the size in megabytes, as a
    string with two decimals, and not a byte count; on a tree of readable
    directories whose regular files are all whole multiples of 1048576
    bytes, however deeply nested, that string is the exact byte total
    divided by 1048576, and so ["3.00"] when the files add up to 3145728
    bytes. *)
Theorem getTotalSizeInMB_whole_mebibytes (dirPath : string)
        (files : list (string * node)) :
  wholeMB (Dir files) = true ->
  fst (getTotalSizeInMB dirPath (Dir files))
  = Fixed2 (100 * (computeSize_spec (Dir files) / 1048576))
  /\ (computeSize_spec (Dir files) = 3145728 ->
      fst (getTotalSizeInMB dirPath (Dir files)) = Fixed2 300).
Proof.
  intros W.
  destruct (getTotalSizeInMB_wholeMB (Dir files) W) as (_ & _ & E).
  split; [apply E |].
  intros B. rewrite E, B. reflexivity.
Qed.

Lemma getTotalSizeInMB_whole_mebibytes_witness :
  wholeMB twoFiles = true /\
  fst (getTotalSizeInMB "pkg" twoFiles) = Fixed2 300.
Proof.
  split; [reflexivity |].
  apply (getTotalSizeInMB_whole_mebibytes "pkg"
           [("a.bin", File 1048576); ("b.bin", File 2097152)]);
    reflexivity.
Defined.

(** C1, as stated, fails: on a directory holding exactly a 1048576-byte
    and a 2097152-byte file the function returns the string ["3.00"], not
    the byte count 3145728; and totals are rounded at each directory, so
    15000 bytes spread over three sub-directories come out as ["0.00"]
    while the same bytes in one file come out as ["0.01"]. *)
Lemma getTotalSizeInMB_not_bytes :
  fst (getTotalSizeInMB "pkg" twoFiles) = Fixed2 300
  /\ ~ (toNumber (fst (getTotalSizeInMB "pkg" twoFiles)) == 3145728)%Q
  /\ computeSize_spec threeSmallDirs = 15000
  /\ fst (getTotalSizeInMB "pkg" threeSmallDirs) = Fixed2 0
  /\ fst (getTotalSizeInMB "pkg" (Dir [("f", File 15000)])) = Fixed2 1.
Proof.
  repeat split; try reflexivity.
  intros E. vm_compute in E. discriminate E.
Qed.

(** C2 fails on the code: [statSync] describes the target of a link, so a
    link to a 2097152-byte file adds ["2.00"] megabytes, a link to a
    directory is scanned like the directory, and a dangling link makes
    the whole directory report the number 0. *)
Theorem getTotalSizeInMB_follows_symlinks :
  fst (getTotalSizeInMB "pkg" (Dir [("link", Symlink (Some (File 2097152)))]))
  = Fixed2 200
  /\ fst (getTotalSizeInMB "pkg"
            (Dir [("link", Symlink (Some (Dir [("f", File 1048576)])))]))
     = Fixed2 100
  /\ getTotalSizeInMB "pkg"
       (Dir [("x", File 1048576); ("link", Symlink None)])
     = (NumZero, [ErrorReading "pkg"]).
Proof. repeat split; reflexivity. Qed.

(* ------------------------------------------------------------------ *)
(** ** The size ledger *)

Lemma rowsOf_app (a b : list sizeLine) : rowsOf (a ++ b) = rowsOf a ++ rowsOf b.
Proof.
  induction a as [| x a IH]; [reflexivity |].
  destruct x; simpl; rewrite IH; reflexivity.
Qed.

Lemma scanEntries_no_rows self dirPath files :
  Forall (fun e => forall p, rowsOf (snd (self p (snd e))) = []) files ->
  forall acc, rowsOf (snd (scanEntries self dirPath files acc)) = [].
Proof.
  induction 1 as [| [file child] rest Hc _ IH]; intros acc; [reflexivity |].
  cbn [scanEntries]. destruct (skipped file); [apply IH |].
  destruct (statSync child) as [stats |]; [| reflexivity].
  destruct (isSymbolicLink stats); [apply IH |].
  destruct (isDirectory stats).
  - specialize (Hc (path_join dirPath file)). cbn [snd] in Hc.
    destruct (self (path_join dirPath file) child) as [dirSize out].
    cbn [snd] in Hc.
    specialize (IH (acc + toNumber dirSize * 1024 * 1024)%Q).
    destruct (scanEntries self dirPath rest _) as [r out'].
    cbn [snd] in IH |- *. rewrite rowsOf_app, Hc, IH. reflexivity.
  - destruct (isFile stats); apply IH.
Qed.

Lemma getTotalSizeInMB_no_rows (n : node) :
  forall dirPath, rowsOf (snd (getTotalSizeInMB dirPath n)) = [].
Proof.
  induction n as [sz | files IH | | t IH | |] using node_induction;
    intros dirPath; try reflexivity.
  - cbn [getTotalSizeInMB].
    pose proof (scanEntries_no_rows getTotalSizeInMB dirPath files IH 0%Q) as E.
    destruct (scanEntries getTotalSizeInMB dirPath files 0) as [[q |] out];
      cbn [snd] in E |- *; [exact E |].
    rewrite rowsOf_app, E. reflexivity.
  - apply IH.
Qed.

Section LedgerFacts.
Variable cwd : string.
Variable node_modules : string -> option node.

Lemma measure_name dep : name (fst (measure cwd node_modules dep)) = dep.
Proof.
  unfold measure. destruct (node_modules dep) as [n |]; [| reflexivity].
  destruct (negb (existsSync (Some n))); [reflexivity |].
  destruct (getTotalSizeInMB _ n). reflexivity.
Qed.

Lemma measure_missing dep :
  existsSync (node_modules dep) = false ->
  measure cwd node_modules dep = (mkPkg dep 0, [WarningNotFound dep]).
Proof.
  unfold measure. destruct (node_modules dep) as [n |]; [| reflexivity].
  intros ->. reflexivity.
Qed.

Lemma measure_no_rows dep : rowsOf (snd (measure cwd node_modules dep)) = [].
Proof.
  unfold measure. destruct (node_modules dep) as [n |]; [| reflexivity].
  destruct (negb (existsSync (Some n))); [reflexivity |].
  pose proof (getTotalSizeInMB_no_rows n
                (path_join (path_join cwd "node_modules") dep)) as E.
  destruct (getTotalSizeInMB _ n). exact E.
Qed.

(** Every measured size is a number with two decimals. *)
Lemma measure_two_decimals dep :
  exists h, (size (fst (measure cwd node_modules dep)) == ofFixed2 h)%Q.
Proof.
  unfold measure. destruct (node_modules dep) as [n |].
  - destruct (negb (existsSync (Some n))).
    + exists 0. reflexivity.
    + destruct (getTotalSizeInMB _ n) as [[| h] out]; cbn [fst size toNumber].
      * exists 0. reflexivity.
      * exists h. reflexivity.
  - exists 0. reflexivity.
Qed.
End LedgerFacts.

(** *** The stable sort *)

Lemma insert_perm cmp x l : Permutation (x :: l) (insert cmp x l).
Proof.
  induction l as [| y l IH]; simpl; [reflexivity |].
  destruct (Qle_bool (cmp x y) 0); [reflexivity |].
  rewrite perm_swap. apply perm_skip, IH.
Qed.

Lemma sort_perm cmp l : Permutation l (sort cmp l).
Proof.
  induction l as [| x l IH]; simpl; [constructor |].
  rewrite <- insert_perm. apply perm_skip, IH.
Qed.








(** The colour that [rowColor] picks for a number: green up to and
    including 5, yellow above 5 up to and including 10, red above 10. *)
Theorem rowColor_tiers :
  (forall s t : Q, (s == t)%Q -> rowColor s = rowColor t)
  /\ (forall s : Q, (s <= 5)%Q -> rowColor s = green)
  /\ (forall s : Q, (5 < s)%Q -> (s <= 10)%Q -> rowColor s = yellow)
  /\ (forall s : Q, (10 < s)%Q -> rowColor s = red)
  /\ rowColor 5 = green
  /\ rowColor 10 = yellow
  /\ rowColor (1001 # 100) = red.
Proof.
  assert (G : forall x y, Qgt_bool x y = true <-> (y < x)%Q).
  { intros x y. unfold Qgt_bool. rewrite negb_true_iff.
    split.
    - intros E. destruct (Qlt_le_dec y x) as [L | L]; [exact L |].
      apply Qle_bool_iff in L. congruence.
    - intros L. destruct (Qle_bool x y) eqn:E; [| reflexivity].
      apply Qle_bool_iff in E. lra. }
  assert (N : forall x y, (x <= y)%Q -> Qgt_bool x y = false).
  { intros x y L. destruct (Qgt_bool x y) eqn:E; [| reflexivity].
    apply G in E. lra. }
  repeat split; try reflexivity.
  - intros s t E. unfold rowColor, Qgt_bool.
    assert (C : forall c, Qle_bool s c = Qle_bool t c)
      by (intros c; rewrite E; reflexivity).
    rewrite !C. reflexivity.
  - intros s L. unfold rowColor. rewrite !N by lra. reflexivity.
  - intros s L U. unfold rowColor. rewrite N by lra.
    apply G in L. rewrite L. reflexivity.
  - intros s L. unfold rowColor. apply G in L. rewrite L. reflexivity.
Qed.

Lemma rowColor_tiers_witness :
  rowColor (1234 # 100) = red /\ rowColor (750 # 100) = yellow
  /\ rowColor (499 # 100) = green.
Proof.
  destruct rowColor_tiers as (_ & Lo & Mid & Hi & _).
  split; [apply Hi; reflexivity |].
  split; [apply Mid; [reflexivity | discriminate] | apply Lo; discriminate].
Defined.

(** *** Totals *)

Lemma rowsOf_rows (l : list pkgSize) :
  rowsOf (map (fun pkg => Row (name pkg) (rowColor (size pkg))
                              (toFixed2 (size pkg))) l)
  = map shownRow l.
Proof. induction l as [| p l IH]; simpl; [| rewrite IH]; reflexivity. Qed.

Lemma rowsOf_logs (f : string -> list sizeLine) (deps : list string) :
  (forall dep, rowsOf (f dep) = []) -> rowsOf (flat_map f deps) = [].
Proof.
  intros H. induction deps as [| d deps IH]; simpl; [reflexivity |].
  rewrite rowsOf_app, H, IH. reflexivity.
Qed.

Lemma sum_two_decimals (l : list pkgSize) :
  Forall twoDecimals l ->
  forall acc,
    (fold_left (fun sum pkg => sum + size pkg) l acc
     == acc + ofFixed2 (fold_right Z.add 0%Z (map snd (map shownRow l))))%Q.
Proof.
  induction 1 as [| p l [h Hp] _ IH]; intros acc; simpl.
  - unfold ofFixed2. field.
  - rewrite IH. rewrite (toFixed2_eq _ _ Hp), Hp.
    unfold ofFixed2. rewrite inject_Z_plus. field.
Qed.

Lemma ofFixed2_pos (h : Z) : (0 < ofFixed2 h)%Q -> 0 < h.
Proof.
  unfold ofFixed2. intros H.
  assert (L : (0 < inject_Z h)%Q).
  { setoid_replace (inject_Z h) with (inject_Z h / 100 * 100)%Q by field.
    lra. }
  change 0%Q with (inject_Z 0) in L. rewrite <- Zlt_Qlt in L. exact L.
Qed.

Lemma Qgt_bool_true (x y : Q) : Qgt_bool x y = true -> (y < x)%Q.
Proof.
  unfold Qgt_bool. rewrite negb_true_iff. intros E.
  destruct (Qlt_le_dec y x) as [L | L]; [exact L |].
  apply Qle_bool_iff in L. congruence.
Qed.

Section LedgerReport.
Variable cwd : string.
Variable node_modules : string -> option node.

Lemma shown_measured deps pkg :
  In pkg (packageSizes cwd node_modules deps) ->
  (0 < size pkg)%Q /\
  exists dep, In dep deps /\ pkg = fst (measure cwd node_modules dep).
Proof.
  unfold packageSizes. intros H.
  apply (Permutation_in _ (Permutation_sym (sort_perm _ _))) in H.
  apply filter_In in H. destruct H as [H G].
  apply Qgt_bool_true in G. split; [exact G |].
  apply in_map_iff in H. destruct H as (dep & E & I).
  exists dep. auto.
Qed.

Lemma rowsOf_analyzeSize deps :
  rowsOf (analyzeSize cwd node_modules deps)
  = map shownRow (packageSizes cwd node_modules deps).
Proof.
  unfold analyzeSize. cbn [rowsOf]. rewrite !rowsOf_app.
  rewrite rowsOf_logs by (intros dep; apply measure_no_rows).
  rewrite rowsOf_rows. cbn [rowsOf app]. apply app_nil_r.
Qed.

(** C3, as amended: a dependency whose install path does not exist gets
    a warning naming it and no row; every row shows a positive size;
    the last two lines give the number of rows and a total that is the
    sum of the displayed two-decimal sizes of the rows. *)
Theorem analyzeSize_ledger (deps : list string) :
  let out := analyzeSize cwd node_modules deps in
  (forall dep, In dep deps -> existsSync (node_modules dep) = false ->
               In (WarningNotFound dep) out
               /\ ~ In dep (map fst (rowsOf out)))
  /\ (forall n h, In (n, h) (rowsOf out) -> 0 < h)
  /\ exists front,
      out = front ++ [TotalPackages (List.length (rowsOf out));
                      TotalSize (fold_right Z.add 0 (map snd (rowsOf out)))].
Proof.
  cbv zeta. rewrite rowsOf_analyzeSize.
  split; [| split].
  - intros dep I M. split.
    + unfold analyzeSize. right. apply in_or_app. left.
      apply in_flat_map. exists dep. split; [exact I |].
      rewrite (measure_missing _ _ _ M). left. reflexivity.
    + rewrite map_map. intros H. apply in_map_iff in H.
      destruct H as (pkg & E & H). cbn [shownRow fst] in E.
      apply shown_measured in H. destruct H as (G & dep' & _ & ->).
      rewrite measure_name in E. subst dep'.
      rewrite (measure_missing _ _ _ M) in G. cbn in G. lra.
  - intros n h H. apply in_map_iff in H. destruct H as (pkg & E & H).
    injection E as _ <-.
    apply shown_measured in H. destruct H as (G & dep & _ & ->).
    destruct (measure_two_decimals cwd node_modules dep) as [k Hk].
    rewrite (toFixed2_eq _ _ Hk). apply ofFixed2_pos. rewrite <- Hk. exact G.
  - unfold analyzeSize.
    exists (Banner
              :: flat_map (fun dep => snd (measure cwd node_modules dep)) deps
              ++ map (fun pkg => Row (name pkg) (rowColor (size pkg))
                                     (toFixed2 (size pkg)))
                     (packageSizes cwd node_modules deps)).
    cbn [app]. f_equal. rewrite <- app_assoc. do 2 f_equal.
    rewrite length_map. do 3 f_equal.
    apply toFixed2_eq. unfold totalSize. rewrite sum_two_decimals.
    + lra.
    + apply Forall_forall. intros pkg H.
      apply shown_measured in H. destruct H as (_ & dep & _ & ->).
      apply measure_two_decimals.
Qed.
End LedgerReport.

Lemma analyzeSize_ledger_witness :
  In "c" ["a"; "b"; "c"] /\ existsSync (smallPackages "c") = false
  /\ In (WarningNotFound "c")
        (analyzeSize "/proj" smallPackages ["a"; "b"; "c"]).
Proof.
  split; [right; right; left; reflexivity |].
  split; [reflexivity |].
  apply (analyzeSize_ledger "/proj" smallPackages ["a"; "b"; "c"]).
  - right; right; left; reflexivity.
  - reflexivity.
Defined.

(** C3, as stated, fails: the sizes are rounded to two decimals per
    package before they are added.  Two packages of 6000 bytes show as
    ["0.01"] each and the total as ["0.02"], while their 12000 bytes,
    added first and rounded once, are ["0.01"]. *)
Lemma analyzeSize_total_of_rounded :
  analyzeSize "/proj" smallPackages ["a"; "b"; "c"]
  = [Banner; WarningNotFound "c"; Row "a" green 1; Row "b" green 1;
     TotalPackages 2; TotalSize 2]
  /\ toFixed2 (inject_Z (computeSize_spec (Dir [("index.js", File 6000)])
                         + computeSize_spec (Dir [("index.js", File 6000)]))
               / (1024 * 1024)) = 1.
Proof. split; reflexivity. Qed.

(* ------------------------------------------------------------------ *)
(** ** The alternative matcher *)

(** Where no dependency is named like a property of [Object.prototype],
    the suggestions are those of the table's own keys, in the order of
    the dependencies. *)
Lemma suggestions_own_keys (root : list (string * value)) :
  Forall (fun e => assoc (fst e) objectPrototype = None) root ->
  suggestions root
  = flat_map (fun e =>
                match assoc (fst e) largeDeps with
                | Some alt =>
                  [("Consider using " ++ alt ++ " instead of " ++ fst e)%string]
                | None => []
                end) root.
Proof.
  induction 1 as [| [dep info] root H _ IH]; [reflexivity |].
  cbn [suggestions flat_map fst] in *. unfold suggestions in IH. rewrite IH.
  unfold largeDeps_get. rewrite H.
  destruct (assoc dep largeDeps); reflexivity.
Qed.

Lemma suggestAlternatives_examples :
  suggestAlternatives plain
    (Some [("lodash", VObj [("version", VStr "4.17.21")]);
           ("unknown-pkg", VObj [("version", VStr "1.0.0")])])
  = [("Suggesting lightweight alternatives..." ++ nl)%string;
     "Consider using lodash-es instead of lodash"]
  /\ suggestAlternatives plain
       (Some [("unknown-pkg", VObj [("version", VStr "1.0.0")])])
     = [("Suggesting lightweight alternatives..." ++ nl)%string;
        "No suggestions at the moment."].
Proof. split; reflexivity. Qed.

(** C5 fails on the code: [largeDeps[dep]] also finds what the table
    inherits from [Object.prototype], so a dependency named [constructor],
    which is no key of the table, gets a suggestion and the no-suggestions
    message is not shown. *)
Theorem suggestAlternatives_inherited_property :
  assoc "constructor" largeDeps = None
  /\ suggestAlternatives plain
       (Some [("constructor", VObj [("version", VStr "1.0.0")])])
     = [("Suggesting lightweight alternatives..." ++ nl)%string;
        ("Consider using function Object() { [native code] }"
           ++ " instead of constructor")%string].
Proof. split; reflexivity. Qed.

(* ------------------------------------------------------------------ *)
(** ** The tree renderer *)

Lemma append_assoc (a b c : string) :
  ((a ++ b) ++ c = a ++ (b ++ c))%string.
Proof. induction a as [| x a IH]; simpl; [| rewrite IH]; reflexivity. Qed.

Lemma indentOf_snoc (level : nat) :
  (indentOf level ++ "  " = indentOf (S level))%string.
Proof.
  induction level as [| l IH]; [reflexivity |].
  cbn [indentOf append] in *. rewrite IH. reflexivity.
Qed.

(** [whenProp] is the lookup followed by the truthiness test. *)
Lemma whenProp_get {A : Type} (k : string) (f : value -> A) (d : A)
      (v : value) :
  whenProp k f d v
  = match get k v with
    | Some (VStr "") => d
    | Some x => f x
    | None => d
    end.
Proof.
  destruct v as [s | es]; [reflexivity |].
  induction es as [| [k' x] es IH]; [reflexivity |].
  cbn [whenProp get] in *. destruct (k' =? k)%string; [| exact IH].
  destruct x as [[| c s] | es']; reflexivity.
Qed.

(** *** Induction on package trees *)

Section PackageInd.
Variable P : PackageNode -> Prop.
Hypothesis HPkg :
  forall n v cs, Forall P (match cs with Some l => l | None => [] end) ->
                 P (Pkg n v cs).

Lemma package_induction (p : PackageNode) : P p.
Proof.
  revert p. fix IH 1. intros [n v [l |]]; apply HPkg.
  - induction l as [| c r IHr]; constructor; [apply IH | exact IHr].
  - constructor.
Qed.
End PackageInd.

Section RendererFacts.
Variable chalk : Chalk.
Variable readManifest : string -> option value.

Local Abbreviation print := (printDependencyTree chalk readManifest).

Lemma peerLines_declared indent name :
  peerLines chalk readManifest indent name
  = map (peerLine chalk indent) (declaredPeers readManifest name).
Proof.
  unfold peerLines, declaredPeers.
  destruct (readManifest name) as [depPackage |]; [| reflexivity].
  rewrite whenProp_get.
  destruct (get "peerDependencies" depPackage) as [[[| c s] | es] |];
    reflexivity.
Qed.

Lemma printEntry_node self level name info :
  name <> "dependencies" ->
  printEntry chalk readManifest self level (name, info)
  = nodeLine chalk (indentOf level) name info
      :: peerLines chalk readManifest (indentOf level) name
      ++ whenProp "dependencies" (fun d => self d (level + 1)%nat) [] info.
Proof.
  intros N. unfold printEntry.
  destruct (name =? "dependencies")%string eqn:E; [| reflexivity].
  apply String.eqb_eq in E. contradiction.
Qed.

(** An index is never the wrapper key, and a one-character string has no
    [dependencies]: below the entries of a string the callback does not
    recurse, whatever stands for the recursive call. *)
Lemma decimal_not_wrapper (i : nat) :
  (decimal i =? "dependencies")%string = false.
Proof.
  unfold decimal. destruct (Nat.to_uint i); reflexivity.
Qed.

Lemma printEntry_charEntries self self' level (s : string) :
  forall i,
    flat_map (printEntry chalk readManifest self level) (charEntries i s)
    = flat_map (printEntry chalk readManifest self' level) (charEntries i s).
Proof.
  induction s as [| c s IH]; intros i; [reflexivity |].
  cbn [charEntries flat_map]. rewrite (IH (S i)). f_equal.
  unfold printEntry. rewrite decimal_not_wrapper. reflexivity.
Qed.

Lemma print_app es1 es2 level :
  print (VObj (es1 ++ es2)) level
  = print (VObj es1) level ++ print (VObj es2) level.
Proof. cbn [printDependencyTree]. apply flat_map_app. Qed.

Lemma print_cons e es level :
  print (VObj (e :: es)) level
  = printEntry chalk readManifest print level e ++ print (VObj es) level.
Proof. reflexivity. Qed.

Lemma versionOf_encode n v cs :
  versionOf (snd (encode (Pkg n v cs))) = displayedVersion v.
Proof.
  destruct v as [[| c s] |]; try reflexivity.
  destruct cs; reflexivity.
Qed.

Lemma peerLine_spec level entry :
  peerLine chalk (indentOf level) entry
  = (let (peer, range) := entry in
     indentOf (S level) ++ chalk_yellow chalk "└─" ++ " "
       ++ chalk_dim chalk
            ("requires " ++ peer ++ "@" ++ toString range))%string.
Proof.
  destruct entry as [peer range]. unfold peerLine.
  rewrite <- indentOf_snoc, append_assoc. reflexivity.
Qed.

Lemma children_encode n v cs level :
  whenProp "dependencies" (fun d => print d (level + 1)%nat) []
           (snd (encode (Pkg n v cs)))
  = match cs with
    | Some l => print (VObj (map encode l)) (S level)
    | None => []
    end.
Proof.
  rewrite Nat.add_1_r.
  destruct v as [s |]; destruct cs as [l |]; reflexivity.
Qed.

Lemma print_forest_by_entries forest level :
  Forall (fun p => forall level,
              printEntry chalk readManifest print level (encode p)
              = render_spec chalk readManifest level p) forest ->
  print (VObj (map encode forest)) level
  = flat_map (render_spec chalk readManifest level) forest.
Proof.
  induction 1 as [| p forest Hp _ IH]; [reflexivity |].
  cbn [map flat_map]. rewrite print_cons, Hp, IH. reflexivity.
Qed.

Lemma printEntry_render (p : PackageNode) :
  properNames p = true ->
  forall level,
    printEntry chalk readManifest print level (encode p)
    = render_spec chalk readManifest level p.
Proof.
  induction p as [n v cs IH] using package_induction.
  intros W level. cbn [properNames] in W.
  apply andb_true_iff in W. destruct W as [Wn Wc].
  apply negb_true_iff, String.eqb_neq in Wn.
  assert (E : encode (Pkg n v cs) = (n, snd (encode (Pkg n v cs))))
    by reflexivity.
  rewrite E, (printEntry_node _ _ _ _ Wn). clear E.
  rewrite children_encode, peerLines_declared.
  cbn [render_spec]. unfold nodeLine. rewrite versionOf_encode.
  f_equal. f_equal.
  - apply map_ext. intros [peer range]. apply peerLine_spec.
  - destruct cs as [l |]; [| reflexivity].
    apply print_forest_by_entries.
    rewrite forallb_forall in Wc.
    rewrite Forall_forall in IH |- *.
    intros c Hc. apply IH; [exact Hc | apply Wc, Hc].
Qed.

Lemma render_spec_length (p : PackageNode) :
  forall level,
    List.length (render_spec chalk readManifest level p)
    = (countNodes p + countPeers readManifest p)%nat.
Proof.
  induction p as [n v cs IH] using package_induction.
  intros level. cbn [render_spec countNodes countPeers List.length].
  rewrite length_app, length_map.
  destruct cs as [l |]; [| simpl; lia].
  assert (L : List.length
                (flat_map (render_spec chalk readManifest (S level)) l)
              = (fold_right (fun c acc => countNodes c + acc) O l
                 + fold_right (fun c acc => countPeers readManifest c + acc)
                              O l)%nat).
  { induction IH as [| c l Hc _ IHl]; [reflexivity |].
    cbn [flat_map fold_right]. rewrite length_app, Hc, IHl. lia. }
  rewrite L. lia.
Qed.
End RendererFacts.

Lemma forest_length chalk readManifest level (forest : list PackageNode) :
  List.length (flat_map (render_spec chalk readManifest level) forest)
  = (countForest forest + countForestPeers readManifest forest)%nat.
Proof.
  induction forest as [| p forest IH]; [reflexivity |].
  unfold countForest, countForestPeers in *. cbn [flat_map fold_right].
  rewrite length_app, render_spec_length, IH. lia.
Qed.

(** X26: for a tree object that holds only the [dependencies] of the
    root, in which no package is named [dependencies], the renderer
    prints the root line and then the packages in pre-order, following
    the entries of each object: one line per package, indented two spaces
    per level with the root's direct dependencies at level 0 (no
    indentation), each followed at once by one annotation line per peer
    that the manifest installed under its name declares, one level
    deeper, and then by its children.  The lines after the root line
    number the packages plus the declared peers. *)
Theorem visualizeTree_renders_forest (chalk : Chalk)
        (readManifest : string -> option value) (packageJson : value)
        (forest : list PackageNode) :
  forallb properNames forest = true ->
  (forall level,
      printDependencyTree chalk readManifest (VObj (map encode forest)) level
      = flat_map (render_spec chalk readManifest level) forest)
  /\ visualizeTree chalk readManifest packageJson
       (Some (VObj [("dependencies", VObj (map encode forest))]))
     = chalk_blue chalk ("Visualizing dependency tree..." ++ nl)%string
         :: rootLine chalk packageJson
         :: flat_map (render_spec chalk readManifest 0) forest
  /\ List.length (flat_map (render_spec chalk readManifest 0) forest)
     = (countForest forest + countForestPeers readManifest forest)%nat.
Proof.
  intros W.
  assert (E : forall level,
             printDependencyTree chalk readManifest
                                 (VObj (map encode forest)) level
             = flat_map (render_spec chalk readManifest level) forest).
  { intros level. apply print_forest_by_entries.
    rewrite forallb_forall in W. apply Forall_forall.
    intros p Hp level'. apply printEntry_render, W, Hp. }
  split; [exact E | split; [| apply forest_length]].
  unfold visualizeTree, rootLine. do 2 f_equal.
  rewrite print_cons. cbn [printEntry String.eqb Ascii.eqb Bool.eqb].
  change (printDependencyTree chalk readManifest (VObj []) 0)
    with (@nil string).
  rewrite app_nil_r. apply E.
Qed.

Lemma visualizeTree_renders_forest_witness :
  forallb properNames diamond = true
  /\ visualizeTree plain sampleManifests
       (VObj [("name", VStr "demo"); ("version", VStr "0.1.0")])
       (Some (VObj [("dependencies", VObj (map encode diamond))]))
     = [("Visualizing dependency tree..." ++ nl)%string;
        "demo@0.1.0";
        "a@1.0.0";
        "  lodash@4.17.21";
        "react-dom@18.2.0";
        "  └─ requires react@^18.2.0";
        "  lodash@3.10.1"].
Proof.
  split; [reflexivity |].
  apply (visualizeTree_renders_forest plain sampleManifests
           (VObj [("name", VStr "demo"); ("version", VStr "0.1.0")]) diamond).
  reflexivity.
Defined.

(** A package that is itself named [dependencies] is taken for the
    wrapper key; it gets no line of its own and its fields are printed as
    if they were packages. *)
Lemma printDependencyTree_package_named_dependencies :
  printDependencyTree plain sampleManifests
    (VObj (map encode [Pkg "dependencies" (Some "1.0.0") None])) 0
  = ["version@unknown"]
  /\ flat_map (render_spec plain sampleManifests 0)
              [Pkg "dependencies" (Some "1.0.0") None]
     = ["dependencies@1.0.0"]
  /\ printDependencyTree plain sampleManifests
       (VObj (map encode [Pkg "dependencies" None None])) 0 = []
  /\ countForest [Pkg "dependencies" None None] = 1%nat.
Proof. repeat split; reflexivity. Qed.

(** On what [npm list --json] really prints, an object that also has the
    root's [version] and [name], those two keys are rendered as if they
    were packages. *)
Lemma visualizeTree_top_level_keys :
  visualizeTree plain sampleManifests
    (VObj [("name", VStr "demo"); ("version", VStr "0.1.0")])
    (Some (VObj [("version", VStr "0.1.0"); ("name", VStr "demo");
                 ("dependencies",
                  VObj [("a", VObj [("version", VStr "1.0.0")])])]))
  = [("Visualizing dependency tree..." ++ nl)%string;
     "demo@0.1.0"; "version@unknown"; "name@unknown"; "a@1.0.0"].
Proof. reflexivity. Qed.

(** The output follows the entries of the object, and each entry is
    rendered where it stands, from its own name and fields alone: the
    block of a package is the same whatever comes before or after it, so
    a name that occurs twice is printed twice, each time with the version
    of that occurrence. *)
Theorem printDependencyTree_in_order (chalk : Chalk)
        (readManifest : string -> option value)
        (before after : list (string * value)) (name : string)
        (info : value) (level : nat) :
  name <> "dependencies" ->
  printDependencyTree chalk readManifest
    (VObj (before ++ (name, info) :: after)) level
  = printDependencyTree chalk readManifest (VObj before) level
      ++ entryBlock chalk readManifest level name info
      ++ printDependencyTree chalk readManifest (VObj after) level.
Proof.
  intros N. rewrite print_app, print_cons, printEntry_node by exact N.
  reflexivity.
Qed.

Lemma printDependencyTree_in_order_witness :
  "lodash" <> "dependencies"
  /\ printDependencyTree plain sampleManifests
       (VObj ([("zlib", VObj [("version", VStr "1.0.5")])]
                ++ ("lodash", VObj [("version", VStr "4.17.21")])
                :: [("lodash-es", VObj [("version", VStr "4.17.21")]);
                    ("abbrev", VObj [("version", VStr "2.0.0")])])) 0
     = ["zlib@1.0.5"] ++ ["lodash@4.17.21"]
         ++ ["lodash-es@4.17.21"; "abbrev@2.0.0"].
Proof.
  split; [discriminate |].
  apply (printDependencyTree_in_order plain sampleManifests
           [("zlib", VObj [("version", VStr "1.0.5")])]
           [("lodash-es", VObj [("version", VStr "4.17.21")]);
            ("abbrev", VObj [("version", VStr "2.0.0")])]
           "lodash" (VObj [("version", VStr "4.17.21")]) 0).
  discriminate.
Defined.

(** The same name below two parents keeps both versions. *)
Lemma printDependencyTree_diamond :
  printDependencyTree plain sampleManifests diamondResult 0
  = ["a@1.0.0"; "  lodash@4.17.21";
     "react-dom@18.2.0"; "  └─ requires react@^18.2.0"; "  lodash@3.10.1"].
Proof. reflexivity. Qed.

(** On strings and objects, an entry without a [version] is printed with
    ["unknown"], and an entry without [dependencies] is a leaf: after its
    own line and its peer annotations nothing is printed for it. *)
Theorem printDependencyTree_missing_fields (chalk : Chalk)
        (readManifest : string -> option value)
        (name : string) (info : value) (level : nat) :
  name <> "dependencies" ->
  (get "version" info = None ->
   nodeLine chalk (indentOf level) name info
   = (indentOf level ++ chalk_bold chalk name ++ "@"
        ++ chalk_green chalk "unknown")%string)
  /\ (get "dependencies" info = None ->
      printDependencyTree chalk readManifest (VObj [(name, info)]) level
      = nodeLine chalk (indentOf level) name info
          :: peerLines chalk readManifest (indentOf level) name)
  /\ exists line rest,
      printDependencyTree chalk readManifest (VObj [(name, info)]) level
      = line :: rest.
Proof.
  intros N. split; [| split].
  - intros V. unfold nodeLine, versionOf. rewrite whenProp_get, V. reflexivity.
  - intros D. rewrite print_cons, printEntry_node by exact N.
    rewrite whenProp_get, D.
    change (printDependencyTree chalk readManifest (VObj []) level)
      with (@nil string).
    rewrite !app_nil_r. reflexivity.
  - rewrite print_cons, printEntry_node by exact N. cbn [app].
    eexists. eexists. reflexivity.
Qed.

Lemma printDependencyTree_missing_fields_witness :
  "left-pad" <> "dependencies"
  /\ get "version" (VObj [("resolved", VStr "file:../left-pad")]) = None
  /\ get "dependencies" (VObj [("resolved", VStr "file:../left-pad")]) = None
  /\ printDependencyTree plain sampleManifests
       (VObj [("left-pad", VObj [("resolved", VStr "file:../left-pad")])]) 1
     = ["  left-pad@unknown"].
Proof.
  split; [discriminate |]. split; [reflexivity |]. split; [reflexivity |].
  pose proof (printDependencyTree_missing_fields plain sampleManifests
                "left-pad" (VObj [("resolved", VStr "file:../left-pad")]) 1%nat)
    as H.
  destruct H as (_ & Leaf & _); [discriminate |].
  rewrite Leaf; reflexivity.
Defined.



(* ------------------------------------------------------------------ *)
(** ** More on the size aggregator *)

Lemma nonNegative_cons file child rest :
  nonNegative (Dir ((file, child) :: rest))
  = nonNegative child && nonNegative (Dir rest).
Proof. reflexivity. Qed.

Lemma scanEntries_skip self dirPath before file child after :
  skipped file = true ->
  forall acc,
    scanEntries self dirPath (before ++ (file, child) :: after) acc
    = scanEntries self dirPath (before ++ after) acc.
Proof.
  intros S. induction before as [| [f c] before IH]; intros acc.
  - cbn [app scanEntries]. rewrite S. reflexivity.
  - cbn [app scanEntries]. destruct (skipped f); [apply IH |].
    destruct (statSync c) as [stats |]; [| reflexivity].
    destruct (isSymbolicLink stats); [apply IH |].
    destruct (isDirectory stats).
    + destruct (self (path_join dirPath f) c) as [dirSize out].
      rewrite IH. reflexivity.
    + destruct (isFile stats); apply IH.
Qed.

(** X1: an entry named [.git], [.] or [..] is passed over before it is
    even looked at: whatever it is (a huge directory, a dangling link),
    the result and the logged lines are those of the listing without
    it. *)
Theorem getTotalSizeInMB_ignores_skipped (dirPath file : string)
        (child : node) (before after : list (string * node)) :
  skipped file = true ->
  getTotalSizeInMB dirPath (Dir (before ++ (file, child) :: after))
  = getTotalSizeInMB dirPath (Dir (before ++ after)).
Proof.
  intros S. cbn [getTotalSizeInMB].
  rewrite (scanEntries_skip _ _ _ _ _ _ S). reflexivity.
Qed.

Lemma getTotalSizeInMB_ignores_skipped_witness :
  skipped ".git" = true
  /\ getTotalSizeInMB "pkg"
       (Dir ([("index.js", File 1048576)]
               ++ (".git", Symlink None) :: [("lib", Dir [])]))
     = getTotalSizeInMB "pkg"
         (Dir ([("index.js", File 1048576)] ++ [("lib", Dir [])])).
Proof.
  split; [reflexivity |].
  apply (getTotalSizeInMB_ignores_skipped "pkg" ".git" (Symlink None)
           [("index.js", File 1048576)] [("lib", Dir [])]).
  reflexivity.
Defined.

Lemma scanEntries_throws self dirPath files :
  forall acc,
    fst (scanEntries self dirPath files acc) = None
    <-> existsb cannotStat files = true.
Proof.
  induction files as [| [file child] files IH]; intros acc.
  - cbn. split; discriminate.
  - cbn [scanEntries existsb]. unfold cannotStat at 1. cbn [fst snd].
    destruct (skipped file); cbn [negb andb orb]; [apply IH |].
    destruct (statSync child) as [stats |];
      [| cbn; split; reflexivity].
    cbn [orb].
    destruct (isSymbolicLink stats); [apply IH |].
    destruct (isDirectory stats).
    + destruct (self (path_join dirPath file) child) as [dirSize out].
      specialize (IH (acc + toNumber dirSize * 1024 * 1024)%Q).
      destruct (scanEntries self dirPath files _) as [r out'].
      exact IH.
    + destruct (isFile stats); apply IH.
Qed.

(** X2: a readable directory reports failure (the number 0) exactly when
    one of its own entries that is not skipped cannot be [stat]ed; a
    failure further down is absorbed by the sub-directory that hits it
    and the parent still returns its two-decimal string. *)
Theorem getTotalSizeInMB_fails_iff (dirPath : string)
        (files : list (string * node)) :
  fst (getTotalSizeInMB dirPath (Dir files)) = NumZero
  <-> existsb cannotStat files = true.
Proof.
  rewrite <- (scanEntries_throws getTotalSizeInMB dirPath files 0%Q).
  cbn [getTotalSizeInMB].
  destruct (scanEntries getTotalSizeInMB dirPath files 0) as [[q |] out];
    cbn [fst]; split; intros H; try discriminate H; reflexivity.
Qed.

Lemma toFixed2_nonneg (x : Q) : (0 <= x)%Q -> 0 <= toFixed2 x.
Proof.
  intros H. unfold toFixed2.
  change 0 with (Qfloor 0). apply Qfloor_resp_le. lra.
Qed.

Lemma ofFixed2_nonneg (h : Z) : 0 <= h -> (0 <= ofFixed2 h)%Q.
Proof.
  intros H. unfold ofFixed2.
  assert (L : (0 <= inject_Z h)%Q)
    by (change 0%Q with (inject_Z 0); rewrite <- Zle_Qle; exact H).
  apply Qle_shift_div_l; lra.
Qed.

Lemma statSync_size_nonneg (n : node) (stats : Stats) :
  nonNegative n = true -> statSync n = Some stats -> 0 <= st_size stats.
Proof.
  induction n as [sz | files _ | | t IH | |] using node_induction;
    cbn [nonNegative statSync]; intros W E;
    try (injection E as <-; cbn [st_size]; lia).
  - apply IH; assumption.
  - discriminate E.
Qed.

Lemma scanEntries_nonneg dirPath files :
  Forall (fun e => nonNegativeResult (snd e)) files ->
  nonNegative (Dir files) = true ->
  forall acc q,
    (0 <= acc)%Q ->
    fst (scanEntries getTotalSizeInMB dirPath files acc) = Some q ->
    (0 <= q)%Q.
Proof.
  induction 1 as [| [file child] rest Hc _ IH]; intros W acc q A E.
  - cbn in E. injection E as <-. exact A.
  - rewrite nonNegative_cons in W. apply andb_true_iff in W.
    destruct W as [Wc Wr]. specialize (IH Wr).
    cbn [scanEntries] in E. destruct (skipped file); [eapply IH; eauto |].
    destruct (statSync child) as [stats |] eqn:S; [| discriminate E].
    destruct (isSymbolicLink stats); [eapply IH; eauto |].
    destruct (isDirectory stats).
    + cbn [snd] in Hc. specialize (Hc Wc (path_join dirPath file)).
      destruct (getTotalSizeInMB (path_join dirPath file) child)
        as [dirSize out].
      cbn [fst] in Hc.
      destruct (scanEntries getTotalSizeInMB dirPath rest
                            (acc + toNumber dirSize * 1024 * 1024)%Q)
        as [r out'] eqn:R.
      cbn [fst] in E. subst r.
      apply (IH (acc + toNumber dirSize * 1024 * 1024)%Q q); [nra |].
      rewrite R. reflexivity.
    + destruct (isFile stats); [| eapply IH; eauto].
      pose proof (statSync_size_nonneg _ _ Wc S) as P.
      apply (IH (acc + inject_Z (st_size stats))%Q q); [| exact E].
      assert (L : (0 <= inject_Z (st_size stats))%Q)
        by (change 0%Q with (inject_Z 0); rewrite <- Zle_Qle; exact P).
      lra.
Qed.

Lemma getTotalSizeInMB_nonneg (n : node) : nonNegativeResult n.
Proof.
  induction n as [sz | files IH | | t IH | |] using node_induction;
    intros W dirPath; try (cbn; lra).
  - cbn [getTotalSizeInMB].
    pose proof (scanEntries_nonneg dirPath files IH W 0%Q) as S.
    destruct (scanEntries getTotalSizeInMB dirPath files 0) as [[q |] out];
      cbn [fst toNumber]; [| lra].
    apply ofFixed2_nonneg, toFixed2_nonneg.
    apply Qle_shift_div_l; [reflexivity |].
    specialize (S q). cbn [fst] in S.
    assert (0 <= q)%Q by (apply S; [lra | reflexivity]). lra.
  - cbn [getTotalSizeInMB]. apply IH. exact W.
Qed.

(** X3: whatever the shape of the tree (links, unreadable directories,
    failures), the size returned is never negative when no file has a
    negative length. *)
Theorem getTotalSizeInMB_never_negative (dirPath : string) (n : node)
        (h : Z) :
  nonNegative n = true ->
  fst (getTotalSizeInMB dirPath n) = Fixed2 h ->
  0 <= h.
Proof.
  intros W E. pose proof (getTotalSizeInMB_nonneg n W dirPath) as P.
  rewrite E in P. cbn [toNumber] in P. unfold ofFixed2 in P.
  assert (L : (0 <= inject_Z h)%Q).
  { setoid_replace (inject_Z h) with (inject_Z h / 100 * 100)%Q by field.
    nra. }
  change 0%Q with (inject_Z 0) in L. rewrite <- Zle_Qle in L. exact L.
Qed.

Lemma getTotalSizeInMB_never_negative_witness :
  nonNegative threeSmallDirs = true
  /\ fst (getTotalSizeInMB "pkg" threeSmallDirs) = Fixed2 0
  /\ 0 <= 0.
Proof.
  split; [reflexivity |]. split; [reflexivity |].
  apply (getTotalSizeInMB_never_negative "pkg" threeSmallDirs 0);
    reflexivity.
Defined.

Lemma scanEntries_flat self dirPath files :
  forallb isRegular files = true ->
  forall acc, exists q,
      scanEntries self dirPath files acc = (Some q, [])
      /\ (q == acc + inject_Z (computeSize_spec (Dir files)))%Q.
Proof.
  induction files as [| [file child] files IH]; intros W acc.
  - exists acc. split; [reflexivity | cbn; ring].
  - cbn [forallb] in W. apply andb_true_iff in W. destruct W as [Wc Wr].
    destruct child as [sz | | | |]; try discriminate Wc.
    rewrite computeSize_spec_cons. cbn [scanEntries statSync].
    destruct (skipped file).
    + destruct (IH Wr acc) as (q & E & Eq). exists q.
      split; [exact E |]. rewrite Eq. cbn [Z.add]. reflexivity.
    + cbn [isSymbolicLink isDirectory isFile st_size].
      destruct (IH Wr (acc + inject_Z sz)%Q) as (q & E & Eq). exists q.
      split; [exact E |]. rewrite Eq, inject_Z_plus. ring.
Qed.

(** X4: a directory that holds regular files only is measured exactly:
    its bytes are added up, divided by 1048576 and rounded once, and
    nothing is logged. *)
Theorem getTotalSizeInMB_flat (dirPath : string)
        (files : list (string * node)) :
  forallb isRegular files = true ->
  getTotalSizeInMB dirPath (Dir files)
  = (Fixed2 (toFixed2 (inject_Z (computeSize_spec (Dir files))
                       / (1024 * 1024))), []).
Proof.
  intros W. cbn [getTotalSizeInMB].
  destruct (scanEntries_flat getTotalSizeInMB dirPath files W 0%Q)
    as (q & E & Eq).
  rewrite E. do 2 f_equal. apply toFixed2_comp. rewrite Eq. field.
Qed.

Lemma getTotalSizeInMB_flat_witness :
  forallb isRegular [("a.js", File 700000); ("b.js", File 900000)] = true
  /\ getTotalSizeInMB "pkg"
       (Dir [("a.js", File 700000); ("b.js", File 900000)])
     = (Fixed2 153, []).
Proof.
  split; [reflexivity |].
  rewrite (getTotalSizeInMB_flat "pkg"
             [("a.js", File 700000); ("b.js", File 900000)]);
    reflexivity.
Defined.

Lemma errorUnder_deeper dirPath file line :
  errorUnder (path_join dirPath file) line -> errorUnder dirPath line.
Proof.
  intros [rest ->]. exists ("/" ++ file ++ rest)%string.
  unfold path_join. rewrite !append_assoc. reflexivity.
Qed.

Lemma errorUnder_self dirPath : errorUnder dirPath (ErrorReading dirPath).
Proof.
  exists ""%string. f_equal.
  induction dirPath as [| c s IH]; [reflexivity |].
  cbn. rewrite <- IH. reflexivity.
Qed.

Lemma scanEntries_errors dirPath files :
  Forall (fun e => forall p,
              Forall (errorUnder p) (snd (getTotalSizeInMB p (snd e))))
         files ->
  forall acc,
    Forall (errorUnder dirPath)
           (snd (scanEntries getTotalSizeInMB dirPath files acc)).
Proof.
  induction 1 as [| [file child] rest Hc _ IH]; intros acc; [constructor |].
  cbn [scanEntries]. destruct (skipped file); [apply IH |].
  destruct (statSync child) as [stats |]; [| constructor].
  destruct (isSymbolicLink stats); [apply IH |].
  destruct (isDirectory stats).
  - specialize (Hc (path_join dirPath file)). cbn [snd] in Hc.
    destruct (getTotalSizeInMB (path_join dirPath file) child)
      as [dirSize out].
    cbn [snd] in Hc.
    specialize (IH (acc + toNumber dirSize * 1024 * 1024)%Q).
    destruct (scanEntries getTotalSizeInMB dirPath rest _) as [r out'].
    cbn [snd] in IH |- *. apply Forall_app. split; [| exact IH].
    eapply Forall_impl; [| exact Hc].
    intros line. apply errorUnder_deeper.
  - destruct (isFile stats); apply IH.
Qed.

Lemma getTotalSizeInMB_errors (n : node) :
  forall dirPath,
    Forall (errorUnder dirPath) (snd (getTotalSizeInMB dirPath n)).
Proof.
  induction n as [sz | files IH | | t IH | |] using node_induction;
    intros dirPath;
    try (cbn; constructor; [apply errorUnder_self | constructor]).
  - cbn [getTotalSizeInMB].
    pose proof (scanEntries_errors dirPath files IH 0%Q) as E.
    destruct (scanEntries getTotalSizeInMB dirPath files 0) as [[q |] out];
      cbn [snd] in E |- *; [exact E |].
    apply Forall_app. split; [exact E |].
    constructor; [apply errorUnder_self | constructor].
  - apply IH.
Qed.

(** X5: the scan logs nothing but read errors, and each of them names
    the scanned path or a path below it. *)
Theorem getTotalSizeInMB_logs_errors_below (dirPath : string) (n : node) :
  Forall (errorUnder dirPath) (snd (getTotalSizeInMB dirPath n)).
Proof. apply getTotalSizeInMB_errors. Qed.

(* ------------------------------------------------------------------ *)
(** ** More on the size ledger *)

Lemma errorUnder_not_warning dirPath dep :
  ~ errorUnder dirPath (WarningNotFound dep).
Proof. intros [rest E]. discriminate E. Qed.

Lemma measure_warning cwd node_modules dep d :
  In (WarningNotFound d) (snd (measure cwd node_modules dep))
  <-> d = dep /\ existsSync (node_modules dep) = false.
Proof.
  unfold measure. destruct (node_modules dep) as [n |].
  - destruct (existsSync (Some n)) eqn:X; cbn [negb].
    + pose proof (getTotalSizeInMB_errors n
                    (path_join (path_join cwd "node_modules") dep)) as L.
      destruct (getTotalSizeInMB _ n) as [size out]. cbn [snd] in *.
      split; [| intros [_ F]; discriminate F].
      intros I. rewrite Forall_forall in L. apply L in I.
      destruct (errorUnder_not_warning _ _ I).
    + cbn. split.
      * intros [E | []]. injection E as ->. auto.
      * intros [-> _]. auto.
  - cbn. split.
    + intros [E | []]. injection E as ->. auto.
    + intros [-> _]. auto.
Qed.

Lemma in_rows_not_warning (l : list pkgSize) d :
  ~ In (WarningNotFound d)
       (map (fun pkg => Row (name pkg) (rowColor (size pkg))
                            (toFixed2 (size pkg))) l).
Proof.
  intros I. apply in_map_iff in I. destruct I as (pkg & E & _).
  discriminate E.
Qed.

Lemma warning_in_report (cwd : string)
      (node_modules : string -> option node) (deps : list string)
      (d : string) :
  In (WarningNotFound d) (analyzeSize cwd node_modules deps)
  <-> In d deps /\ existsSync (node_modules d) = false.
Proof.
  unfold analyzeSize. split.
  - intros [E | I]; [discriminate E |].
    apply in_app_or in I. destruct I as [I | I].
    + apply in_flat_map in I. destruct I as (dep & Hd & I).
      apply measure_warning in I. destruct I as [-> M]. auto.
    + apply in_app_or in I. destruct I as [I | I].
      * destruct (in_rows_not_warning _ _ I).
      * destruct I as [E | [E | []]]; discriminate E.
  - intros [I M]. right. apply in_or_app. left.
    apply in_flat_map. exists d. split; [exact I |].
    apply measure_warning. auto.
Qed.

(** X6: a [not found] warning is printed for a name exactly when that
    name is one of the listed dependencies and nothing exists at its
    install path. *)
Theorem analyzeSize_warns_iff_missing (cwd : string)
        (node_modules : string -> option node) (deps : list string)
        (d : string) :
  In (WarningNotFound d) (analyzeSize cwd node_modules deps)
  <-> In d deps /\ existsSync (node_modules d) = false.
Proof. apply warning_in_report. Qed.

(** X7: every row of the report is about one of the listed dependencies,
    and there are no more rows than dependencies. *)
Theorem analyzeSize_rows_are_dependencies (cwd : string)
        (node_modules : string -> option node) (deps : list string) :
  (forall n h, In (n, h) (rowsOf (analyzeSize cwd node_modules deps)) ->
               In n deps)
  /\ (List.length (rowsOf (analyzeSize cwd node_modules deps))
      <= List.length deps)%nat.
Proof.
  rewrite rowsOf_analyzeSize. split.
  - intros n h I. apply in_map_iff in I. destruct I as (pkg & E & I).
    injection E as <- _.
    apply shown_measured in I. destruct I as (_ & dep & Hd & ->).
    rewrite measure_name. exact Hd.
  - rewrite length_map. unfold packageSizes.
    rewrite <- (Permutation_length (sort_perm _ _)).
    etransitivity; [apply filter_length_le |].
    rewrite length_map. reflexivity.
Qed.

Lemma rowColor_comp (s t : Q) : (s == t)%Q -> rowColor s = rowColor t.
Proof.
  intros E. unfold rowColor, Qgt_bool.
  assert (C : forall c, Qle_bool s c = Qle_bool t c)
    by (intros c; rewrite E; reflexivity).
  rewrite !C. reflexivity.
Qed.

Lemma Qgt_bool_ofFixed2 (h k : Z) :
  Qgt_bool (ofFixed2 h) (inject_Z k) = (100 * k <? h).
Proof.
  unfold Qgt_bool.
  assert (E : Qle_bool (ofFixed2 h) (inject_Z k) = (h <=? 100 * k)).
  { apply eq_true_iff_eq. rewrite Qle_bool_iff, Z.leb_le.
    unfold ofFixed2, Qle, Qdiv, Qmult, Qinv, inject_Z.
    cbn [Qnum Qden]. lia. }
  rewrite E. rewrite Z.ltb_antisym. reflexivity.
Qed.

Lemma rowColor_ofFixed2 (h : Z) :
  rowColor (ofFixed2 h)
  = if 1000 <? h then red else if 500 <? h then yellow else green.
Proof.
  unfold rowColor.
  change 10%Q with (inject_Z 10). change 5%Q with (inject_Z 5).
  rewrite !Qgt_bool_ofFixed2. reflexivity.
Qed.

(** X8: the colour of a row agrees with the number printed on it: red
    above 10.00, yellow above 5.00 up to 10.00, green up to 5.00. *)
Theorem analyzeSize_row_colour (cwd : string)
        (node_modules : string -> option node) (deps : list string)
        (n : string) (c : color) (h : Z) :
  In (Row n c h) (analyzeSize cwd node_modules deps) ->
  c = if 1000 <? h then red else if 500 <? h then yellow else green.
Proof.
  unfold analyzeSize. intros [E | I]; [discriminate E |].
  apply in_app_or in I. destruct I as [I | I].
  - exfalso. apply in_flat_map in I. destruct I as (dep & _ & I).
    pose proof (measure_no_rows cwd node_modules dep) as R.
    apply in_split in I. destruct I as (l1 & l2 & E).
    rewrite E, rowsOf_app in R. cbn [rowsOf] in R.
    destruct (rowsOf l1); discriminate R.
  - apply in_app_or in I. destruct I as [I | I].
    + apply in_map_iff in I. destruct I as (pkg & E & I).
      injection E as _ <- <-.
      apply shown_measured in I. destruct I as (_ & dep & _ & ->).
      destruct (measure_two_decimals cwd node_modules dep) as [k Hk].
      rewrite (toFixed2_eq _ _ Hk), (rowColor_comp _ _ Hk).
      apply rowColor_ofFixed2.
    + destruct I as [E | [E | []]]; discriminate E.
Qed.

Lemma analyzeSize_row_colour_witness :
  In (Row "a" green 1) (analyzeSize "/proj" smallPackages ["a"; "b"; "c"])
  /\ green = if 1000 <? 1 then red else if 500 <? 1 then yellow else green.
Proof.
  split; [right; right; left; reflexivity |].
  apply (analyzeSize_row_colour "/proj" smallPackages ["a"; "b"; "c"] "a").
  right; right; left; reflexivity.
Defined.

Lemma measure_all_missing cwd node_modules (deps : list string) :
  Forall (fun dep => existsSync (node_modules dep) = false) deps ->
  map (fun dep => fst (measure cwd node_modules dep)) deps
  = map (fun dep => mkPkg dep 0) deps
  /\ flat_map (fun dep => snd (measure cwd node_modules dep)) deps
     = map WarningNotFound deps.
Proof.
  induction 1 as [| dep deps M _ [IH1 IH2]]; [split; reflexivity |].
  cbn [map flat_map]. rewrite IH1, IH2, (measure_missing _ _ _ M).
  split; reflexivity.
Qed.

Lemma filter_zero_sizes (deps : list string) :
  filter (fun pkg => Qgt_bool (size pkg) 0)
         (map (fun dep => mkPkg dep 0) deps) = [].
Proof. induction deps as [| d deps IH]; [reflexivity | exact IH]. Qed.

(** X9: when none of the listed dependencies is installed, the report is
    one warning per dependency, in order, no row, a count of 0 and a
    total of 0.00. *)
Theorem analyzeSize_nothing_installed (cwd : string)
        (node_modules : string -> option node) (deps : list string) :
  Forall (fun dep => existsSync (node_modules dep) = false) deps ->
  analyzeSize cwd node_modules deps
  = Banner :: map WarningNotFound deps ++ [TotalPackages 0; TotalSize 0].
Proof.
  intros M. destruct (measure_all_missing cwd node_modules deps M) as [E1 E2].
  unfold analyzeSize, totalSize, packageSizes.
  rewrite E1, E2, filter_zero_sizes. reflexivity.
Qed.

Lemma analyzeSize_nothing_installed_witness :
  Forall (fun dep => existsSync (smallPackages dep) = false) ["x"; "y"]
  /\ analyzeSize "/proj" smallPackages ["x"; "y"]
     = [Banner; WarningNotFound "x"; WarningNotFound "y";
        TotalPackages 0; TotalSize 0].
Proof.
  assert (M : Forall (fun dep => existsSync (smallPackages dep) = false)
                     ["x"; "y"])
    by (repeat constructor).
  split; [exact M |].
  apply (analyzeSize_nothing_installed "/proj" smallPackages ["x"; "y"] M).
Defined.

(** X10: an installed package whose size rounds to 0.00 megabytes (or
    whose scan fails) leaves no trace in the report: no row, since
    zero-size records are dropped, and no warning, since it exists. *)
Theorem analyzeSize_omits_tiny_package (cwd : string)
        (node_modules : string -> option node) (deps : list string)
        (dep : string) (n : node) :
  node_modules dep = Some n ->
  existsSync (Some n) = true ->
  (toNumber (fst (getTotalSizeInMB
                    (path_join (path_join cwd "node_modules") dep) n))
   == 0)%Q ->
  ~ In dep (map fst (rowsOf (analyzeSize cwd node_modules deps)))
  /\ ~ In (WarningNotFound dep) (analyzeSize cwd node_modules deps).
Proof.
  intros N X Z. split.
  - rewrite rowsOf_analyzeSize, map_map. intros I.
    apply in_map_iff in I. destruct I as (pkg & E & I).
    cbn [shownRow fst] in E.
    apply shown_measured in I. destruct I as (G & dep' & _ & ->).
    rewrite measure_name in E. subst dep'.
    unfold measure in G. rewrite N, X in G. cbn [negb] in G.
    destruct (getTotalSizeInMB _ n) as [sz out].
    cbn [fst size] in G, Z. lra.
  - intros I. apply warning_in_report in I.
    destruct I as [_ M]. rewrite N in M. congruence.
Qed.

Lemma analyzeSize_omits_tiny_package_witness :
  tinyPackage "tiny" = Some (Dir [("index.js", File 5000)])
  /\ ~ In "tiny" (map fst (rowsOf (analyzeSize "/proj" tinyPackage
                                               ["tiny"])))
  /\ ~ In (WarningNotFound "tiny") (analyzeSize "/proj" tinyPackage ["tiny"]).
Proof.
  split; [reflexivity |].
  apply (analyzeSize_omits_tiny_package "/proj" tinyPackage ["tiny"] "tiny"
           (Dir [("index.js", File 5000)])); reflexivity.
Defined.

(* ------------------------------------------------------------------ *)
(** ** More on the alternative matcher *)

(** X11: every key of the table is found again by the lookup: an
    installed dependency that is a key of [largeDeps] gets exactly the
    suggestion of the alternative written next to it. *)
Theorem suggestions_table_key (dep alt : string) (info : value) :
  In (dep, alt) largeDeps ->
  suggestions [(dep, info)]
  = [("Consider using " ++ alt ++ " instead of " ++ dep)%string].
Proof.
  unfold largeDeps. intros H.
  repeat (destruct H as [H | H]; [injection H as <- <-; reflexivity |]).
  destruct H.
Qed.

Lemma suggestions_table_key_witness :
  In ("moment", "date-fns") largeDeps
  /\ suggestions [("moment", VObj [("version", VStr "2.29.4")])]
     = ["Consider using date-fns instead of moment"].
Proof.
  assert (I : In ("moment", "date-fns") largeDeps) by (left; reflexivity).
  split; [exact I |].
  apply (suggestions_table_key "moment" "date-fns"
           (VObj [("version", VStr "2.29.4")]) I).
Defined.






(* ------------------------------------------------------------------ *)
(** ** More on the tree renderer *)

Section ValueInd.
Variable P : value -> Prop.
Hypothesis HStr : forall s, P (VStr s).
Hypothesis HObj : forall es, Forall (fun e => P (snd e)) es -> P (VObj es).

Lemma value_induction (v : value) : P v.
Proof.
  revert v. fix IH 1. intros [s | es].
  - apply HStr.
  - apply HObj. induction es as [| e r IHr]; constructor;
      [apply IH | exact IHr].
Qed.
End ValueInd.

Lemma get_in (k : string) (es : list (string * value)) (x : value) :
  get k (VObj es) = Some x -> In x (map snd es).
Proof.
  induction es as [| [k' y] es IH]; [discriminate |].
  cbn [get] in *. destruct (k' =? k)%string.
  - intros E. injection E as ->. left. reflexivity.
  - intros E. right. apply IH, E.
Qed.

Lemma indented_deeper (level : nat) (line : string) :
  (exists rest, line = (indentOf (level + 1) ++ rest)%string) ->
  exists rest, line = (indentOf level ++ rest)%string.
Proof.
  intros [rest ->]. exists ("  " ++ rest)%string.
  rewrite Nat.add_1_r, <- indentOf_snoc, append_assoc. reflexivity.
Qed.

Section Indentation.
Variable chalk : Chalk.
Variable readManifest : string -> option value.

Lemma peerLines_indented indent name line :
  In line (peerLines chalk readManifest indent name) ->
  exists rest, line = (indent ++ rest)%string.
Proof.
  rewrite peerLines_declared. intros I.
  apply in_map_iff in I. destruct I as ([peer range] & <- & _).
  unfold peerLine. eauto.
Qed.

Lemma printEntry_indented self level entry :
  (forall d line,
      get "dependencies" (snd entry) = Some d ->
      In line (self d (level + 1)%nat) ->
      exists rest, line = (indentOf (level + 1) ++ rest)%string) ->
  (forall line, In line (self (snd entry) level) ->
                exists rest, line = (indentOf level ++ rest)%string) ->
  forall line,
    In line (printEntry chalk readManifest self level entry) ->
    exists rest, line = (indentOf level ++ rest)%string.
Proof.
  destruct entry as [name info]. cbn [snd]. intros Hd Hw line.
  unfold printEntry. destruct (name =? "dependencies")%string; [apply Hw |].
  intros [<- | I]; [unfold nodeLine; eauto |].
  apply in_app_or in I. destruct I as [I | I].
  - eapply peerLines_indented, I.
  - rewrite whenProp_get in I.
    destruct (get "dependencies" info) as [d |] eqn:G; [| destruct I].
    apply indented_deeper.
    destruct d as [[| c s] | es]; [destruct I | |]; eapply Hd; eauto.
Qed.

Lemma wrapped_lines (es : list (string * value)) (d : value) :
  get "dependencies" (VObj es) = Some d ->
  forall level line,
    In line (printDependencyTree chalk readManifest d level) ->
    In line (printDependencyTree chalk readManifest (VObj es) level).
Proof.
  induction es as [| [k y] es IH]; [discriminate |].
  intros G level line I. rewrite print_cons. apply in_or_app.
  cbn [get] in G, IH. unfold printEntry.
  destruct (k =? "dependencies")%string.
  - injection G as ->. left. exact I.
  - right. apply IH; assumption.
Qed.

(** X13: whatever the tree holds, every line printed by a call at some
    level starts with the indentation of that level: nothing printed for
    a sub-tree ever sticks out to the left of its parent. *)
Theorem printDependencyTree_indented (deps : value) :
  forall (level : nat) (line : string),
    In line (printDependencyTree chalk readManifest deps level) ->
    exists rest, line = (indentOf level ++ rest)%string.
Proof.
  induction deps as [s | es IH] using value_induction; intros level line I.
  - cbn [printDependencyTree] in I. apply in_flat_map in I.
    destruct I as (entry & _ & I).
    revert I. apply printEntry_indented; intros; contradiction.
  - cbn [printDependencyTree] in I. apply in_flat_map in I.
    destruct I as ([name info] & Hin & I).
    rewrite Forall_forall in IH. specialize (IH (name, info) Hin).
    cbn [snd] in IH.
    revert I. apply printEntry_indented; cbn [snd]; [| apply IH].
    intros d l G Hl. destruct info as [s | es']; [discriminate G |].
    apply IH. eapply wrapped_lines; eauto.
Qed.
End Indentation.

(** X14: [printDependencyTree] is called on the whole object of
    [npm list --json], so the root's own [version] and [name] fields,
    which are strings, are printed as two packages of unknown version
    (with the peer annotations of whatever is installed under those
    names) before the real dependencies. *)
Theorem visualizeTree_prints_root_fields (chalk : Chalk)
        (readManifest : string -> option value) (packageJson : value)
        (version name : string) (dependencies : value) :
  visualizeTree chalk readManifest packageJson
    (Some (VObj [("version", VStr version); ("name", VStr name);
                 ("dependencies", dependencies)]))
  = chalk_blue chalk ("Visualizing dependency tree..." ++ nl)%string
      :: rootLine chalk packageJson
      :: ((chalk_bold chalk "version" ++ "@"
             ++ chalk_green chalk "unknown")%string
            :: peerLines chalk readManifest "" "version")
      ++ ((chalk_bold chalk "name" ++ "@"
             ++ chalk_green chalk "unknown")%string
            :: peerLines chalk readManifest "" "name")
      ++ printDependencyTree chalk readManifest dependencies 0.
Proof.
  unfold visualizeTree, rootLine. do 2 f_equal.
  rewrite !print_cons.
  change (printDependencyTree chalk readManifest (VObj []) 0)
    with (@nil string).
  unfold printEntry. cbn [String.eqb Ascii.eqb Bool.eqb whenProp indentOf].
  unfold nodeLine, versionOf. cbn [whenProp append].
  rewrite !app_nil_r. reflexivity.
Qed.

(* ------------------------------------------------------------------ *)
(** ** Running [npm]: [execCommand] and the commands built on it *)

Section CommandFacts.
Variable chalk : Chalk.
Variable chalk_red : string -> string.
Variable execSync : nat -> string -> jsError + string.
Variable JSON_parse : string -> option value.
Variable syntaxMessage : string -> string.

Local Abbreviation exec :=
  (execCommand chalk chalk_red execSync JSON_parse syntaxMessage).

(** Either a result that is not [null] and silence, or [null] after the
    two error lines, followed by error lines only. *)
Lemma execCommand_shape (calls : nat) (command : string) :
  (exists r, exec calls command = (Returns r, []) /\ r <> Null)
  \/ (exists msg more,
         exec calls command
         = (Returns Null,
            Error (chalk_red ("Error executing: " ++ command)%string)
                  :: Error msg :: more)
         /\ Forall isError more).
Proof.
  unfold execCommand, run, parse.
  destruct (execSync calls command) as [error | stdout].
  - cbn [throw bind try_catch]. 
    destruct (err_stdout error) as [[| c out] |];
      destruct (err_stderr error) as [[| c' err] |];
      destruct (includes "--json" command);
      cbn [truthyText andb textOf];
      try destruct (JSON_parse _);
      cbn; eauto 10 using Forall_nil, Forall_cons;
      try (left; eexists; split; [reflexivity | discriminate]);
      right; do 2 eexists; (split; [reflexivity |]);
      repeat constructor.
  - cbn [ret bind try_catch]. destruct (includes "--json" command).
    + destruct (JSON_parse stdout) as [v |]; cbn.
      * left. eexists. split; [reflexivity | discriminate].
      * right. do 2 eexists. split; [reflexivity | constructor].
    + cbn. left. eexists. split; [reflexivity | discriminate].
Qed.
(** X15: [execCommand] never throws and never stays silent about a
    failure: it returns either a result that is not [null], having printed
    nothing, or [null] after an error line that names the command, the
    error's message and then error lines only. *)
Theorem execCommand_null_or_silent (calls : nat) (command : string) :
  exists r out,
    exec calls command = (Returns r, out)
    /\ (r <> Null -> out = [])
    /\ (r = Null ->
        exists msg more,
          out = Error (chalk_red ("Error executing: " ++ command)%string)
                      :: Error msg :: more
          /\ Forall isError more).
Proof.
  destruct (execCommand_shape calls command)
    as [(r & E & N) | (msg & more & E & F)].
  - exists r, []. split; [exact E |]. split; [reflexivity | contradiction].
  - eexists Null, _. split; [exact E |].
    split; [intros N; contradiction N; reflexivity | eauto].
Qed.

Lemma exec_recovers (calls : nat) (command : string)
      (error : jsError) (c : ascii) (stdout : string) (v : value) :
  execSync calls command = inl error ->
  includes "--json" command = true ->
  err_stdout error = Some (String c stdout) ->
  JSON_parse (String c stdout) = Some v ->
  exec calls command = (Returns (Json v), []).
Proof.
  intros X I O P. unfold execCommand, run, parse.
  rewrite X, I. cbn [throw bind try_catch]. rewrite O.
  cbn [truthyText andb textOf]. rewrite P. reflexivity.
Qed.

(** X16: when a command run with [--json] fails but has printed JSON on
    its standard output, as [npm outdated] and [npm audit] do when they
    have something to report, the parsed output is returned and nothing
    is printed. *)
Theorem execCommand_recovers_json (calls : nat) (command : string)
        (error : jsError) (c : ascii) (stdout : string) (v : value) :
  execSync calls command = inl error ->
  includes "--json" command = true ->
  err_stdout error = Some (String c stdout) ->
  JSON_parse (String c stdout) = Some v ->
  exec calls command = (Returns (Json v), []).
Proof. apply exec_recovers. Qed.

(** X17: what a successful command gives: its raw output when the
    command line has no [--json]; the parsed output when it has and the
    output parses; and [null] with the parser's message as second error
    line when it has and the output does not parse. *)
Theorem execCommand_on_success (calls : nat) (command stdout : string) :
  execSync calls command = inr stdout ->
  exec calls command
  = if includes "--json" command then
      match JSON_parse stdout with
      | Some v => (Returns (Json v), [])
      | None =>
        (Returns Null,
         [Error (chalk_red ("Error executing: " ++ command)%string);
          Error (syntaxMessage stdout)])
      end
    else (Returns (Text stdout), []).
Proof.
  intros X. unfold execCommand, run, parse. rewrite X.
  destruct (includes "--json" command); [| reflexivity].
  cbn [ret bind]. destruct (JSON_parse stdout); reflexivity.
Qed.
(** X18: [npm outdated] exits with an error when packages are outdated;
    [checkOutdated] then still lists them, one line for each entry of the
    parsed report, in the order in which [Object.entries] lists them,
    after the banner and the heading, and prints no error. *)
Theorem checkOutdated_lists_packages (error : jsError) (c : ascii)
        (stdout : string) (first : string * value)
        (others : list (string * value)) :
  execSync 0 "npm outdated --json" = inl error ->
  err_stdout error = Some (String c stdout) ->
  JSON_parse (String c stdout) = Some (VObj (first :: others)) ->
  checkOutdated chalk chalk_red execSync JSON_parse syntaxMessage
  = (Returns tt,
     Log (chalk_blue chalk
            ("Checking for outdated dependencies..." ++ nl)%string)
         :: Log (chalk_yellow chalk
                   ("Outdated dependencies: Current → Latest (Suggested)"
                      ++ nl)%string)
         :: map (outdatedLine chalk chalk_red) (first :: others)).
Proof.
  intros X O P. unfold checkOutdated.
  rewrite (exec_recovers _ _ _ _ _ _ X eq_refl O P). reflexivity.
Qed.

Lemma installAll_ticks (selected : list updateTarget) :
  forall calls, exists out,
      installAll chalk chalk_red execSync JSON_parse syntaxMessage
                 calls selected
      = (Returns tt, out)
      /\ filter isLog out
         = repeat (Log (chalk_green chalk "✓")) (List.length selected).
Proof.
  induction selected as [| dep rest IH]; intros calls.
  - exists []. split; reflexivity.
  - destruct (IH (S calls)) as (out & E & F).
    cbn [installAll]. fold exec. rewrite E.
    destruct (execCommand_shape calls (installCommand dep))
      as [(r & Ex & _) | (msg & more & Ex & Fm)]; rewrite Ex;
      cbn [emit bind try_catch app]; eexists; (split; [reflexivity |]).
    + cbn [filter isLog List.length repeat]. rewrite F. reflexivity.
    + assert (N : filter isLog more = []).
      { clear - Fm. induction Fm as [| e more He _ IHm]; [reflexivity |].
        destruct e; try destruct He. cbn [filter isLog]. exact IHm. }
      cbn [filter isLog List.length repeat app].
      repeat (rewrite filter_app; cbn [filter isLog app]).
      rewrite N, F. reflexivity.
Qed.
Variable promptCheckbox : list choice -> list updateTarget.
Variable duration : string.

(** X19: once packages are selected, [interactiveUpdate] reports every
    one of them as installed: [execCommand] swallows the failure of
    [npm install], so the failure mark is never printed; the lines
    logged are the heading, one tick per selected package and the
    closing line with the number of packages selected, whatever [npm]
    did. *)
Theorem interactiveUpdate_always_ticks (outdated : cmdResult)
        (dep : updateTarget) (rest : list updateTarget) :
  fst (exec 0 "npm outdated --json") = Returns outdated ->
  truthyResult outdated = true ->
  resultEntries outdated <> [] ->
  promptCheckbox (map updateChoice (resultEntries outdated)) = dep :: rest ->
  exists out,
    interactiveUpdate chalk chalk_red execSync JSON_parse syntaxMessage
                      true promptCheckbox duration
    = (Returns tt, out)
    /\ filter isLog out
       = Log (chalk_blue chalk
                (nl ++ "Updating dependencies..." ++ nl)%string)
           :: repeat (Log (chalk_green chalk "✓")) (S (List.length rest))
           ++ [Log (chalk_green chalk
                      (nl ++ "✨ Successfully updated "
                          ++ decimal (S (List.length rest))
                          ++ " package(s) in " ++ duration ++ "s")%string)].
Proof.
  intros E T N P. unfold interactiveUpdate, importInquirer.
  fold exec. cbn [ret bind app].
  destruct (execCommand_shape 0 "npm outdated --json")
    as [(r & Ex & _) | (msg & more & Ex & _)]; rewrite Ex in E |- *;
    cbn [fst] in E; injection E as <-; [| discriminate T].
  cbn [bind]. rewrite T. cbn [negb orb].
  destruct (resultEntries r) as [| e es] eqn:R;
    [contradiction N; reflexivity |].
  cbn [List.length Nat.eqb]. cbv zeta. rewrite P.
  destruct (installAll_ticks (dep :: rest) 1) as (out & I & F).
  rewrite I. cbn [emit bind app]. eexists. split; [reflexivity |].
  cbn [filter isLog]. rewrite filter_app, F. reflexivity.
Qed.

(** X20: once confirmed, [clearCache] announces success whatever
    [npm cache clean] did: between the announcement and the success line
    there are only the error lines of a failed command, if any. *)
Theorem clearCache_always_succeeds :
  exists errors,
    clearCache chalk chalk_red execSync JSON_parse syntaxMessage true true
    = (Returns tt,
       [Log (chalk_yellow chalk
               ("Warning: This will clear your npm cache completely."
                  ++ nl)%string);
        Log (chalk_blue chalk (nl ++ "Clearing npm cache...")%string)]
         ++ errors
         ++ [Log (chalk_green chalk "✨ Successfully cleared npm cache")])
    /\ Forall isError errors.
Proof.
  unfold clearCache, importInquirer. fold exec.
  destruct (execCommand_shape 0 "npm cache clean --force")
    as [(r & Ex & _) | (msg & more & Ex & F)]; rewrite Ex;
    cbn [ret emit bind app].
  - exists []. split; [reflexivity | constructor].
  - exists (Error (chalk_red "Error executing: npm cache clean --force")
                  :: Error msg :: more).
    split; [reflexivity |]. repeat constructor. exact F.
Qed.
End CommandFacts.

(* ------------------------------------------------------------------ *)
(** ** The health command *)

Lemma prefix_cons (a b : ascii) (p s : string) :
  startsWith (String a p) (String b s) = Ascii.eqb a b && startsWith p s.
Proof. reflexivity. Qed.

Lemma prefix_hasChar (x : ascii) (pattern : string) :
  forall s, startsWith pattern s = true ->
            hasChar x pattern = true -> hasChar x s = true.
Proof.
  induction pattern as [| a p IH]; intros s P H; [discriminate H |].
  destruct s as [| b s]; [discriminate P |].
  rewrite prefix_cons in P. apply andb_true_iff in P. destruct P as [E P].
  apply Ascii.eqb_eq in E. subst b.
  cbn [hasChar] in *. apply orb_true_iff in H. apply orb_true_iff.
  destruct H as [H | H]; [left; exact H | right; apply IH; assumption].
Qed.

(** A pattern with a character that the text lacks is not found. *)
Lemma replace_absent (x : ascii) (pattern replacement : string) :
  hasChar x pattern = true ->
  forall s, hasChar x s = false -> replace pattern replacement s = s.
Proof.
  intros Hp. induction s as [| c s IH]; intros Hs.
  - cbn [replace]. destruct (startsWith pattern "") eqn:P; [| reflexivity].
    pose proof (prefix_hasChar x _ _ P Hp) as F. discriminate F.
  - cbn [replace]. destruct (startsWith pattern (String c s)) eqn:P.
    + pose proof (prefix_hasChar x _ _ P Hp) as F. congruence.
    + cbn [hasChar] in Hs. apply orb_false_iff in Hs.
      rewrite IH by apply Hs. reflexivity.
Qed.

Lemma prefix_app (pattern tail : string) :
  startsWith pattern (pattern ++ tail) = true.
Proof.
  induction pattern as [| a p IH]; [reflexivity |].
  cbn [append]. rewrite prefix_cons, Ascii.eqb_refl. exact IH.
Qed.

Lemma dropChars_app (pattern tail : string) :
  dropChars (String.length pattern) (pattern ++ tail) = tail.
Proof. induction pattern as [| a p IH]; [reflexivity | exact IH]. Qed.

(** The first occurrence is the one after a text that lacks the
    pattern's first character. *)
Lemma replace_first (a : ascii) (p replacement tail : string) :
  forall before,
    hasChar a before = false ->
    replace (String a p) replacement (before ++ String a p ++ tail)
    = (before ++ replacement ++ tail)%string.
Proof.
  induction before as [| c s IH]; intros H.
  - change ("" ++ String a p ++ tail)%string with (String a p ++ tail)%string.
    remember (String a p) as pattern eqn:E.
    destruct (pattern ++ tail)%string as [| b r] eqn:T;
      [subst pattern; discriminate T |].
    cbn [replace]. rewrite <- T, prefix_app, dropChars_app. reflexivity.
  - cbn [hasChar] in H. apply orb_false_iff in H. destruct H as [N H].
    change (String c s ++ String a p ++ tail)%string
      with (String c (s ++ String a p ++ tail)).
    cbn [replace]. rewrite prefix_cons.
    rewrite Ascii.eqb_sym, N. cbn [andb]. rewrite IH by exact H.
    reflexivity.
Qed.

Lemma hasChar_app (x : ascii) (s t : string) :
  hasChar x (s ++ t) = hasChar x s || hasChar x t.
Proof.
  induction s as [| c s IH]; [reflexivity |].
  cbn [append hasChar]. rewrite IH, orb_assoc. reflexivity.
Qed.

Lemma replace_step (pattern replacement : string) (c : ascii) (s : string) :
  startsWith pattern (String c s) = false ->
  replace pattern replacement (String c s)
  = String c (replace pattern replacement s).
Proof. intros E. cbn [replace]. rewrite E. reflexivity. Qed.

Lemma replace_here (pattern replacement s : string) :
  startsWith pattern s = true ->
  replace pattern replacement s
  = (replacement ++ dropChars (String.length pattern) s)%string.
Proof. intros E. destruct s; cbn [replace]; rewrite E; reflexivity. Qed.

Ltac walk_replace :=
  cbn [append]; repeat (rewrite replace_step by reflexivity).

Lemma drop_git_plus (s : string) :
  replace "git+" "" ("git+" ++ s) = s.
Proof. rewrite replace_here by reflexivity. reflexivity. Qed.

Lemma drop_first_dot_git (path tail : string) :
  hasChar "." path = false ->
  replace ".git" "" ("https://github.com/" ++ path ++ ".git" ++ tail)
  = ("https://github.com/" ++ path ++ tail)%string.
Proof.
  intros H. walk_replace. do 19 f_equal.
  apply (replace_first "." "git" "" tail path H).
Qed.

Lemma keep_https (s : string) :
  hasChar ":" s = false ->
  replace "git:" "https:" ("https://github.com/" ++ s)
  = ("https://github.com/" ++ s)%string.
Proof.
  intros H. walk_replace. do 19 f_equal.
  apply (replace_absent ":"); [reflexivity | exact H].
Qed.

Lemma to_api (s : string) :
  replace "github.com" "api.github.com/repos" ("https://github.com/" ++ s)
  = ("https://api.github.com/repos/" ++ s)%string.
Proof.
  walk_replace. rewrite replace_here by reflexivity. reflexivity.
Qed.

(** X21: for a manifest whose repository address is
    [git+https://github.com/], a path, [.git] and possibly more, where
    the path has no dot and nothing after the host has a colon, the
    statistics are asked at [https://api.github.com/repos/] followed by
    the path and by what came after that first [.git]: the right address
    when [.git] ends the address, a wrong one when the repository's own
    name contains [.git]. *)
Theorem githubApiUrl_git_https (pkgJson repository : value)
        (path tail : string) :
  get "repository" pkgJson = Some repository ->
  get "url" repository
  = Some (VStr ("git+https://github.com/" ++ path ++ ".git" ++ tail)) ->
  hasChar "." path = false ->
  hasChar ":" (path ++ tail) = false ->
  githubApiUrl pkgJson
  = Some ("https://api.github.com/repos/" ++ path ++ tail)%string.
Proof.
  intros R U D C. unfold githubApiUrl.
  set (rest := ("https://github.com/" ++ path ++ ".git" ++ tail)%string).
  assert (U' : get "url" repository
               = Some (VStr (String "g" (String "i" (String "t"
                                                       (String "+" rest))))))
    by exact U.
  rewrite R, U'. cbv iota beta zeta.
  change (String "g" (String "i" (String "t" (String "+" rest))))
    with ("git+" ++ rest)%string.
  rewrite drop_git_plus. subst rest.
  rewrite (drop_first_dot_git _ _ D), (keep_https _ C), to_api.
  reflexivity.
Qed.

Lemma no_git_plus (s : string) :
  hasChar "+" s = false ->
  replace "git+" "" ("git://github.com/" ++ s)
  = ("git://github.com/" ++ s)%string.
Proof.
  intros H. walk_replace. do 17 f_equal.
  apply (replace_absent "+"); [reflexivity | exact H].
Qed.

Lemma drop_first_dot_git_scheme (path tail : string) :
  hasChar "." path = false ->
  replace ".git" "" ("git://github.com/" ++ path ++ ".git" ++ tail)
  = ("git://github.com/" ++ path ++ tail)%string.
Proof.
  intros H. walk_replace. do 17 f_equal.
  apply (replace_first "." "git" "" tail path H).
Qed.

Lemma scheme_to_https (s : string) :
  replace "git:" "https:" ("git://github.com/" ++ s)
  = ("https://github.com/" ++ s)%string.
Proof. rewrite replace_here by reflexivity. reflexivity. Qed.

(** X22: the same for an address that starts with [git://github.com/]:
    the scheme becomes [https] and the first [.git] is dropped, provided
    the path has no dot and nothing after the host has a plus sign. *)
Theorem githubApiUrl_git_scheme (pkgJson repository : value)
        (path tail : string) :
  get "repository" pkgJson = Some repository ->
  get "url" repository
  = Some (VStr ("git://github.com/" ++ path ++ ".git" ++ tail)) ->
  hasChar "." path = false ->
  hasChar "+" (path ++ tail) = false ->
  githubApiUrl pkgJson
  = Some ("https://api.github.com/repos/" ++ path ++ tail)%string.
Proof.
  intros R U D P. unfold githubApiUrl.
  set (rest := ("it://github.com/" ++ path ++ ".git" ++ tail)%string).
  assert (U' : get "url" repository = Some (VStr (String "g" rest)))
    by exact U.
  rewrite R, U'. cbv iota beta zeta.
  change (String "g" rest)
    with ("git://github.com/" ++ path ++ ".git" ++ tail)%string.
  rewrite no_git_plus.
  - rewrite (drop_first_dot_git_scheme _ _ D), scheme_to_https, to_api.
    reflexivity.
  - rewrite hasChar_app in P |- *. apply orb_false_iff in P.
    destruct P as [P1 P2]. rewrite P1. cbn [orb].
    change (".git" ++ tail)%string
      with (String "." (String "g" (String "i" (String "t" tail)))).
    cbn [hasChar Ascii.eqb Bool.eqb orb]. exact P2.
Qed.

(** A manifest whose repository is the usual [git+https] address of
    [lodash], and one whose repository has [.git] inside its name. *)
Lemma githubApiUrl_git_https_witness :
  githubApiUrl
    (VObj [("name", VStr "lodash");
           ("repository",
            VObj [("type", VStr "git");
                  ("url", VStr "git+https://github.com/lodash/lodash.git")])])
  = Some "https://api.github.com/repos/lodash/lodash"
  /\ githubApiUrl
       (VObj [("repository",
               VStr "git+https://github.com/octo/site.github.io.git")])
     = Some "https://api.github.com/repos/octo/sitehub.io.git".
Proof.
  split.
  - apply (githubApiUrl_git_https _
             (VObj [("type", VStr "git");
                    ("url", VStr "git+https://github.com/lodash/lodash.git")])
             "lodash/lodash" ""); reflexivity.
  - reflexivity.
Defined.

Lemma githubApiUrl_git_scheme_witness :
  githubApiUrl
    (VObj [("repository",
            VObj [("url", VStr "git://github.com/isaacs/abbrev-js.git")])])
  = Some "https://api.github.com/repos/isaacs/abbrev-js".
Proof.
  apply (githubApiUrl_git_scheme _
           (VObj [("url", VStr "git://github.com/isaacs/abbrev-js.git")])
           "isaacs/abbrev-js" ""); reflexivity.
Defined.

Lemma get_objSet (k k' : string) (v : value) (es : list (string * value)) :
  get k' (VObj (objSet k v es))
  = if (k =? k')%string then Some v else get k' (VObj es).
Proof.
  induction es as [| [k0 x] es IH].
  - cbn [objSet get]. reflexivity.
  - cbn [objSet]. destruct (k0 =? k)%string eqn:E.
    + apply String.eqb_eq in E. subst k0. cbn [get].
      destruct (k =? k')%string; reflexivity.
    + cbn [get] in *. destruct (k0 =? k')%string eqn:E'.
      * apply String.eqb_eq in E'. subst k0.
        rewrite String.eqb_sym, E. reflexivity.
      * exact IH.
Qed.

Lemma get_absent (k : string) (es : list (string * value)) :
  ~ In k (map fst es) -> get k (VObj es) = None.
Proof.
  induction es as [| [k0 x] es IH]; [reflexivity |].
  cbn [map fst In get]. intros N.
  destruct (k0 =? k)%string eqn:E.
  - apply String.eqb_eq in E. tauto.
  - apply IH. tauto.
Qed.

Lemma get_spread (k : string) (source : list (string * value)) :
  NoDup (map fst source) ->
  forall target,
    get k (VObj (spread target source))
    = match get k (VObj source) with
      | Some v => Some v
      | None => get k (VObj target)
      end.
Proof.
  unfold spread. induction source as [| [k0 x] source IH]; intros D target.
  - reflexivity.
  - cbn [map fst] in D. inversion D as [| ? ? Hn Hd]; subst.
    cbn [fold_left fst snd]. rewrite (IH Hd), get_objSet.
    change (get k (VObj ((k0, x) :: source)))
      with (if (k0 =? k)%string then Some x else get k (VObj source)).
    destruct (k0 =? k)%string eqn:E; [| reflexivity].
    apply String.eqb_eq in E. subst k0.
    rewrite (get_absent _ _ Hn). reflexivity.
Qed.

Lemma keys_objSet (k : string) (v : value) (es : list (string * value)) :
  NoDup (map fst es) -> NoDup (map fst (objSet k v es))
  /\ forall k', In k' (map fst (objSet k v es))
                <-> k' = k \/ In k' (map fst es).
Proof.
  induction es as [| [k0 x] es IH]; intros D.
  - cbn. split; [repeat constructor; tauto | intros k'; intuition congruence].
  - cbn [map fst] in D. inversion D as [| ? ? Hn Hd]; subst.
    destruct (IH Hd) as [IHd IHk]. cbn [objSet].
    destruct (k0 =? k)%string eqn:E.
    + apply String.eqb_eq in E. subst k0. cbn [map fst In]. split; [exact D |].
      intros k'. intuition congruence.
    + apply String.eqb_neq in E. cbn [map fst In]. split.
      * constructor; [| exact IHd]. rewrite IHk. intros [F | F]; auto.
      * intros k'. rewrite IHk. intuition congruence.
Qed.

Lemma keys_spread (source : list (string * value)) :
  forall target, NoDup (map fst target) ->
                 NoDup (map fst (spread target source)).
Proof.
  unfold spread. induction source as [| [k x] source IH]; intros target D;
    [exact D |].
  cbn [fold_left fst snd]. apply IH, keys_objSet, D.
Qed.

(** X23: in the object that [checkHealth] walks through, every package
    occurs once, and a package listed both in [dependencies] and in
    [devDependencies] carries the range of [devDependencies]; any other
    package carries the range of the one list that has it. *)
Theorem healthDependencies_merge (packageJson : value) (pkg : string) :
  NoDup (map fst (propertyEntries (get "dependencies" packageJson))) ->
  NoDup (map fst (propertyEntries (get "devDependencies" packageJson))) ->
  NoDup (map fst (healthDependencies packageJson))
  /\ get pkg (VObj (healthDependencies packageJson))
     = match get pkg (VObj (propertyEntries
                              (get "devDependencies" packageJson))) with
       | Some range => Some range
       | None => get pkg (VObj (propertyEntries
                                  (get "dependencies" packageJson)))
       end.
Proof.
  intros D1 D2. unfold healthDependencies. split.
  - apply keys_spread, keys_spread. constructor.
  - rewrite (get_spread _ _ D2), (get_spread _ _ D1).
    destruct (get pkg (VObj (propertyEntries
                               (get "devDependencies" packageJson))));
      [reflexivity |].
    destruct (get pkg (VObj (propertyEntries
                               (get "dependencies" packageJson))));
      reflexivity.
Qed.

Ltac decide_command arg name :=
  let E := fresh "E" in
  destruct (String.eqb arg name) eqn:E;
  [apply String.eqb_eq in E; subst arg; vm_compute; tauto | clear E].

(** X24: the usage text and the [switch] agree: an argument starts a
    command exactly when the usage text documents it. *)
Theorem dispatch_documented (arg : string) :
  dispatch (Some arg) <> CmdUsage <-> In arg (map documented usageLines).
Proof.
  split.
  - unfold dispatch. intros H.
    decide_command arg "audit". decide_command arg "outdated".
    decide_command arg "prune". decide_command arg "tree".
    decide_command arg "suggest". decide_command arg "size".
    decide_command arg "health". decide_command arg "update".
    decide_command arg "clear-cache".
    contradiction H. reflexivity.
  - intros H. vm_compute in H.
    repeat (destruct H as [<- | H]; [vm_compute; discriminate |]).
    destruct H.
Qed.

(* ------------------------------------------------------------------ *)
(** ** The prune command *)

Lemma emitAll_events (events : list consoleEvent) :
  emitAll events = (Returns tt, events).
Proof.
  induction events as [| e events IH]; [reflexivity |].
  cbn [emitAll emit bind]. rewrite IH. reflexivity.
Qed.

Lemma errors_are_no_logs (events : list consoleEvent) :
  Forall isError events -> filter isLog events = [].
Proof.
  induction 1 as [| e events He _ IH]; [reflexivity |].
  destruct e; try destruct He. cbn [filter isLog]. exact IH.
Qed.

Section PruneFacts.
Variable chalk : Chalk.
Variable chalk_red : string -> string.
Variable execSync : nat -> string -> jsError + string.
Variable JSON_parse : string -> option value.
Variable syntaxMessage : string -> string.

Lemma uninstallAll_ticks (selected : list string) :
  forall calls, exists out,
      uninstallAll chalk chalk_red execSync JSON_parse syntaxMessage
                   calls selected
      = (Returns tt, out)
      /\ filter isLog out
         = repeat (Log (chalk_green chalk "✓")) (List.length selected).
Proof.
  induction selected as [| dep rest IH]; intros calls.
  - exists []. split; reflexivity.
  - destruct (IH (S calls)) as (out & E & F).
    cbn [uninstallAll]. rewrite E.
    destruct (execCommand_shape chalk chalk_red execSync JSON_parse
                                syntaxMessage calls
                                ("npm uninstall " ++ dep)%string)
      as [(r & Ex & _) | (msg & more & Ex & Fm)]; rewrite Ex;
      cbn [emit bind try_catch app]; eexists; (split; [reflexivity |]).
    + cbn [filter isLog List.length repeat]. rewrite F. reflexivity.
    + pose proof (errors_are_no_logs _ Fm) as N.
      cbn [filter isLog List.length repeat app].
      repeat (rewrite filter_app; cbn [filter isLog app]).
      rewrite N, F. reflexivity.
Qed.

(** X25: when [depcheck] finds unused packages and the user confirms and
    selects some, [pruneDependencies] lists the unused production
    packages, then the unused development packages marked [(dev)], and
    reports every selected package as uninstalled, whatever
    [npm uninstall] did: the failure mark is never printed. *)
Theorem pruneDependencies_always_ticks (text : string) (manifest : value)
        (unusedDeps unusedDevDeps : list string)
        (promptNames : list pruneChoice -> list string) (duration : string)
        (dep : string) (rest : list string) :
  JSON_parse text = Some manifest ->
  unusedDeps ++ unusedDevDeps <> [] ->
  promptNames (pruneChoices unusedDeps unusedDevDeps) = dep :: rest ->
  exists out,
    pruneDependencies chalk chalk_red execSync JSON_parse syntaxMessage
                      true (Some text) unusedDeps unusedDevDeps true
                      promptNames duration
    = (Returns tt, out)
    /\ filter isLog out
       = [Log (chalk_blue chalk
                 ("Checking for unused dependencies..." ++ nl)%string);
          Log (chalk_yellow chalk "Running analysis...");
          Log (chalk_red ("Unused dependencies found:" ++ nl)%string)]
           ++ map (fun d => Log (chalk_red ("- " ++ d)%string)) unusedDeps
           ++ map (fun d => Log (chalk_red ("- " ++ d ++ " (dev)")%string))
                  unusedDevDeps
           ++ Log (chalk_blue chalk
                     (nl ++ "Uninstalling dependencies..." ++ nl)%string)
           :: repeat (Log (chalk_green chalk "✓")) (S (List.length rest))
           ++ [Log (chalk_green chalk
                      (nl ++ "✨ Successfully uninstalled "
                          ++ decimal (S (List.length rest))
                          ++ " package(s) in " ++ duration ++ "s")%string)].
Proof.
  intros P U S. unfold pruneDependencies, parse, importInquirer.
  rewrite P, S.
  destruct (unusedDeps ++ unusedDevDeps) as [| u us] eqn:A;
    [contradiction U; reflexivity |].
  rewrite !emitAll_events.
  destruct (uninstallAll_ticks (dep :: rest) 0) as (out & E & F).
  rewrite E. cbn [ret emit bind app]. eexists. split; [reflexivity |].
  assert (L1 : forall l : list string,
             filter isLog (map (fun d => Log (chalk_red ("- " ++ d)%string)) l)
             = map (fun d => Log (chalk_red ("- " ++ d)%string)) l).
  { induction l as [| x l IH]; [reflexivity |].
    cbn [map filter isLog]. rewrite IH. reflexivity. }
  assert (L2 : forall l : list string,
             filter isLog
               (map (fun d => Log (chalk_red ("- " ++ d ++ " (dev)")%string)) l)
             = map (fun d => Log (chalk_red ("- " ++ d ++ " (dev)")%string)) l).
  { induction l as [| x l IH]; [reflexivity |].
    cbn [map filter isLog]. rewrite IH. reflexivity. }
  cbn [filter isLog].
  repeat (rewrite filter_app; cbn [filter isLog app]).
  rewrite L1, L2, F. reflexivity.
Qed.
End PruneFacts.

(* ------------------------------------------------------------------ *)
(** ** The sample run *)

Lemma execCommand_null_or_silent_witness :
  exists r out,
    execCommand plain (fun s => s) sampleExecSync sampleParse sampleMessage
                1 "npm install lodash@4.17.21"
    = (Returns r, out).
Proof.
  destruct (execCommand_null_or_silent plain (fun s => s) sampleExecSync
              sampleParse sampleMessage 1 "npm install lodash@4.17.21")
    as (r & out & E & _).
  exists r, out. exact E.
Defined.

Lemma execCommand_recovers_json_witness :
  includes "--json" "npm outdated --json" = true
  /\ execCommand plain (fun s => s) sampleExecSync sampleParse sampleMessage
                 0 "npm outdated --json"
     = (Returns (Json outdatedValue), []).
Proof.
  split; [reflexivity |].
  eapply (execCommand_recovers_json plain (fun s => s) sampleExecSync
            sampleParse sampleMessage 0 "npm outdated --json");
    reflexivity.
Defined.

Lemma execCommand_on_success_witness :
  sampleExecSync 0 "npm --version" = inr "10.2.4"
  /\ execCommand plain (fun s => s) sampleExecSync sampleParse sampleMessage
                 0 "npm --version"
     = (Returns (Text "10.2.4"), []).
Proof.
  split; [reflexivity |].
  rewrite (execCommand_on_success plain (fun s => s) sampleExecSync
             sampleParse sampleMessage 0 "npm --version" "10.2.4");
    reflexivity.
Defined.

Lemma checkOutdated_lists_packages_witness :
  checkOutdated plain (fun s => s) sampleExecSync sampleParse sampleMessage
  = (Returns tt,
     [Log ("Checking for outdated dependencies..." ++ nl)%string;
      Log ("Outdated dependencies: Current → Latest (Suggested)"
             ++ nl)%string;
      Log "lodash: 4.17.15 → 4.17.21 (undefined)"]).
Proof.
  exact (checkOutdated_lists_packages plain (fun s => s) sampleExecSync
           sampleParse sampleMessage
           (mkError "Command failed: npm outdated --json"
                    (Some outdatedText) (Some ""))
           "{"%char _
           ("lodash", VObj [("current", VStr "4.17.15");
                            ("latest", VStr "4.17.21")])
           [] eq_refl eq_refl eq_refl).
Defined.

Lemma interactiveUpdate_always_ticks_witness :
  exists out,
    interactiveUpdate plain (fun s => s) sampleExecSync sampleParse
                      sampleMessage true tickAll "0.4"
    = (Returns tt, out)
    /\ filter isLog out
       = [Log (nl ++ "Updating dependencies..." ++ nl)%string;
          Log "✓";
          Log (nl ++ "✨ Successfully updated 1 package(s) in 0.4s")%string].
Proof.
  apply (interactiveUpdate_always_ticks plain (fun s => s) sampleExecSync
           sampleParse sampleMessage tickAll "0.4" (Json outdatedValue)
           (mkTarget "lodash" (Some (VStr "4.17.21"))) []).
  - reflexivity.
  - reflexivity.
  - discriminate.
  - reflexivity.
Defined.

Lemma healthDependencies_merge_witness :
  get "jest" (VObj (healthDependencies sampleManifest))
  = Some (VStr "^29.7.0")
  /\ map fst (healthDependencies sampleManifest) = ["lodash"; "jest"].
Proof.
  split; [| reflexivity].
  destruct (healthDependencies_merge sampleManifest "jest") as [_ E].
  - repeat constructor; cbn; intuition discriminate.
  - repeat constructor; cbn; intuition discriminate.
  - rewrite E. reflexivity.
Defined.

Lemma printDependencyTree_indented_witness :
  In "      lodash@3.10.1"
     (printDependencyTree plain sampleManifests (VObj (map encode diamond)) 2)
  /\ exists rest, "      lodash@3.10.1" = (indentOf 2 ++ rest)%string.
Proof.
  assert (I : In "      lodash@3.10.1"
                 (printDependencyTree plain sampleManifests
                                      (VObj (map encode diamond)) 2))
    by (cbn; intuition).
  split; [exact I |].
  apply (printDependencyTree_indented plain sampleManifests
           (VObj (map encode diamond)) 2 "      lodash@3.10.1" I).
Defined.

Lemma pruneDependencies_always_ticks_witness :
  exists out,
    pruneDependencies plain (fun s => s) sampleExecSync sampleParse
                      sampleMessage true (Some "{}")
                      ["left-pad"] ["mocha"] true
                      (map prune_value) "1.2"
    = (Returns tt, out)
    /\ filter isLog out
       = [Log ("Checking for unused dependencies..." ++ nl)%string;
          Log "Running analysis...";
          Log ("Unused dependencies found:" ++ nl)%string;
          Log "- left-pad";
          Log "- mocha (dev)";
          Log (nl ++ "Uninstalling dependencies..." ++ nl)%string;
          Log "✓";
          Log "✓";
          Log (nl ++ "✨ Successfully uninstalled 2 package(s) in 1.2s"
              )%string].
Proof.
  apply (pruneDependencies_always_ticks plain (fun s => s) sampleExecSync
           sampleParse sampleMessage "{}" (VObj [])
           ["left-pad"] ["mocha"] (map prune_value) "1.2"
           "left-pad" ["mocha"]).
  - reflexivity.
  - discriminate.
  - reflexivity.
Defined.

(* ------------------------------------------------------------------ *)
(** ** The tier of a row *)

Lemma Qgt_bool_pos (h : Z) : 0 < h -> Qgt_bool (ofFixed2 h) 0 = true.
Proof.
  intros H. change 0%Q with (inject_Z 0).
  rewrite Qgt_bool_ofFixed2. apply Z.ltb_lt. lia.
Qed.

(** C4, as amended: the tier is a function of the displayed size, the
    megabyte figure with two decimals that [getTotalSizeInMB] returned:
    an installed dependency with a positive figure gets a row with that
    figure, red (high) when it is above 10.00, yellow (medium) when it is
    above 5.00 up to 10.00, green (low) up to 5.00. *)
Theorem analyzeSize_tier_of_displayed_size (cwd : string)
        (node_modules : string -> option node) (deps : list string)
        (dep : string) (n : node) (h : Z) :
  In dep deps ->
  node_modules dep = Some n ->
  existsSync (Some n) = true ->
  fst (getTotalSizeInMB (path_join (path_join cwd "node_modules") dep) n)
  = Fixed2 h ->
  0 < h ->
  In (Row dep (if 1000 <? h then red else if 500 <? h then yellow else green)
          h)
     (analyzeSize cwd node_modules deps).
Proof.
  intros I N X G P.
  assert (M : fst (measure cwd node_modules dep) = mkPkg dep (ofFixed2 h)).
  { unfold measure. rewrite N, X. cbn [negb].
    destruct (getTotalSizeInMB _ n) as [sz out]. cbn [fst] in G |- *.
    subst sz. reflexivity. }
  assert (S : In (mkPkg dep (ofFixed2 h))
                 (packageSizes cwd node_modules deps)).
  { unfold packageSizes. eapply Permutation_in; [apply sort_perm |].
    apply filter_In. split.
    - rewrite <- M. apply in_map_iff. exists dep. auto.
    - cbn [size]. apply Qgt_bool_pos, P. }
  unfold analyzeSize. right. apply in_or_app. right.
  apply in_or_app. left. apply in_map_iff.
  exists (mkPkg dep (ofFixed2 h)). split; [| exact S].
  cbn [name size]. rewrite rowColor_ofFixed2, toFixed2_ofFixed2.
  reflexivity.
Qed.

Lemma analyzeSize_tier_of_displayed_size_witness :
  In (Row "five" green 500)
     (analyzeSize "/proj" tierPackages ["five"; "ten"; "more"])
  /\ In (Row "ten" yellow 1000)
        (analyzeSize "/proj" tierPackages ["five"; "ten"; "more"])
  /\ In (Row "more" red 1001)
        (analyzeSize "/proj" tierPackages ["five"; "ten"; "more"]).
Proof.
  split; [| split].
  - apply (analyzeSize_tier_of_displayed_size "/proj" tierPackages
             ["five"; "ten"; "more"] "five"
             (Dir [("a.bin", File 5242880)]) 500);
      try reflexivity; [left; reflexivity].
  - apply (analyzeSize_tier_of_displayed_size "/proj" tierPackages
             ["five"; "ten"; "more"] "ten"
             (Dir [("a.bin", File 10485760)]) 1000);
      try reflexivity; [right; left; reflexivity].
  - apply (analyzeSize_tier_of_displayed_size "/proj" tierPackages
             ["five"; "ten"; "more"] "more"
             (Dir [("a.bin", File 10496246)]) 1001);
      try reflexivity; [right; right; left; reflexivity].
Defined.

(** C4, as stated, fails: a package of 10485761 bytes is larger than 10
    megabytes, yet it is shown as ["10.00"] and coloured yellow
    (medium). *)
Lemma analyzeSize_tier_above_ten :
  computeSize_spec (Dir [("a.bin", File 10485761)]) = 10485761
  /\ 10 * 1048576 < 10485761
  /\ analyzeSize "/proj" tierPackages ["over"]
     = [Banner; Row "over" yellow 1000; TotalPackages 1; TotalSize 1000].
Proof. repeat split; reflexivity. Qed.

(* ------------------------------------------------------------------ *)
(** ** Names that collide with the tree's structure *)

(** C6 fails on the code: of the three direct dependencies [a],
    [dependencies] and [c], the second is taken for the wrapper key: no
    line [dependencies@1.0.0] is printed and its [version] field appears
    as a package of unknown version; the direct dependencies are printed
    without indentation, like the root.  The rendering of the claim has
    one line per package, indented by its depth. *)
Theorem visualizeTree_package_named_dependencies :
  visualizeTree plain sampleManifests demoManifest (Some collidingTree)
  = [("Visualizing dependency tree..." ++ nl)%string;
     "demo@0.1.0"; "a@2.0.0"; "version@unknown"; "c@3.0.0"]
  /\ flat_map (render_spec plain sampleManifests 1)
              [Pkg "a" (Some "2.0.0") None;
               Pkg "dependencies" (Some "1.0.0") None;
               Pkg "c" (Some "3.0.0") None]
     = ["  a@2.0.0"; "  dependencies@1.0.0"; "  c@3.0.0"]
  /\ collidingTree
     = VObj [("dependencies",
              VObj (map encode [Pkg "a" (Some "2.0.0") None;
                                Pkg "dependencies" (Some "1.0.0") None;
                                Pkg "c" (Some "3.0.0") None]))].
Proof. repeat split; reflexivity. Qed.

(* ------------------------------------------------------------------ *)
(** ** The order of the entries *)

Lemma indexEntries_none (es : list (string * value)) :
  forallb (fun e => negb (isIndexKey e)) es = true ->
  indexEntries es = [] /\ filter (fun e => negb (isIndexKey e)) es = es.
Proof.
  induction es as [| e es IH]; [split; reflexivity |].
  cbn [forallb]. intros H. apply andb_true_iff in H. destruct H as [He Hr].
  destruct (IH Hr) as [I F]. cbn [indexEntries filter]. rewrite He, I, F.
  unfold isIndexKey in He. destruct (arrayIndex (fst e)); [discriminate He |].
  split; reflexivity.
Qed.

(** Where no key is an array index, the parsed tree lists its entries
    as they were written. *)
Lemma parsedOrder_as_written (v : value) :
  noIndexKeys v = true -> parsedOrder v = v.
Proof.
  induction v as [s | es IH] using value_induction; [reflexivity |].
  cbn [noIndexKeys parsedOrder]. intros H. f_equal.
  assert (M : map (fun e => (fst e, parsedOrder (snd e))) es = es).
  { induction IH as [| [k x] es Hx _ IHes]; [reflexivity |].
    cbn [forallb] in H. apply andb_true_iff in H. destruct H as [He Hr].
    apply andb_true_iff in He. destruct He as [_ Hx'].
    cbn [map fst snd] in *. rewrite (Hx Hx'), (IHes Hr). reflexivity. }
  rewrite M. unfold ownOrder.
  assert (K : forallb (fun e => negb (isIndexKey e)) es = true).
  { clear - H. induction es as [| e es IHes]; [reflexivity |].
    cbn [forallb] in *. apply andb_true_iff in H. destruct H as [He Hr].
    apply andb_true_iff in He. destruct He as [He _].
    rewrite He, (IHes Hr). reflexivity. }
  destruct (indexEntries_none es K) as [I F]. rewrite I, F. reflexivity.
Qed.

(** C7 fails on the code: [npm] reports the dependencies [b] and [1] in
    that order; the object made of the report lists the integer-like key
    first, and the tree is printed as [1] and then [b]. *)
Theorem visualizeTree_integer_name_first :
  visualizeTree plain sampleManifests demoManifest
                (Some (parsedOrder reportedTree))
  = [("Visualizing dependency tree..." ++ nl)%string;
     "demo@0.1.0"; "1@2.0.0"; "b@1.0.0"]
  /\ visualizeTree plain sampleManifests demoManifest (Some reportedTree)
     = [("Visualizing dependency tree..." ++ nl)%string;
        "demo@0.1.0"; "b@1.0.0"; "1@2.0.0"].
Proof. split; reflexivity. Qed.

(* ------------------------------------------------------------------ *)
(** ** The renderer on any JSON value *)

Lemma bind_returns {A B : Type} (a : A) (out : list consoleEvent)
      (f : A -> M B) :
  bind (Returns a, out) f = (fst (f a), out ++ snd (f a)).
Proof. cbn [bind]. destruct (f a). reflexivity. Qed.

Lemma forEach_returns {A : Type} (f : A -> M unit)
      (g : A -> list consoleEvent) (l : list A) :
  Forall (fun x => f x = (Returns tt, g x)) l ->
  forEach f l = (Returns tt, flat_map g l).
Proof.
  induction 1 as [| x l Hx _ IH]; [reflexivity |].
  cbn [forEach flat_map]. rewrite Hx, IH. reflexivity.
Qed.

Lemma map_flat_map {A B C : Type} (h : B -> C) (g : A -> list B)
      (l : list A) :
  map h (flat_map g l) = flat_map (fun x => map h (g x)) l.
Proof.
  induction l as [| x l IH]; [reflexivity |].
  cbn [flat_map]. rewrite map_app, IH. reflexivity.
Qed.

Lemma deeply_here (P : value -> Prop) (v : value) : deeply P v -> P v.
Proof. destruct v; intros [H _]; exact H. Qed.

Lemma deeply_below (P : value -> Prop) (es : list (string * value))
      (x : value) :
  deeply P (VObj es) -> In x (map snd es) -> deeply P x.
Proof.
  intros [_ H]. induction es as [| e es IH]; [intros []|].
  destruct H as [He Hr]. intros [<- | I]; [exact He | apply IH; assumption].
Qed.

Lemma deeply_all (P : value -> Prop) :
  (forall s, P (VStr s)) ->
  (forall es, Forall (fun e => deeply P (snd e)) es -> P (VObj es)) ->
  forall v, deeply P v.
Proof.
  intros HS HO.
  induction v as [s | es IH] using value_induction.
  - split; [apply HS | exact I].
  - split; [apply HO, IH |].
    induction IH as [| e es He _ IHes]; [exact I | split; assumption].
Qed.

Lemma jshow_inject (v : value) : jshow (inject v) = toString v.
Proof. destruct v; reflexivity. Qed.

Lemma jwhen_inject {A : Type} (k : string) (f : json -> A) (d : A)
      (v : value) :
  jwhen k f d (inject v) = whenProp k (fun x => f (inject x)) d v.
Proof.
  destruct v as [s | es]; [reflexivity |].
  induction es as [| [k' x] es IH]; [reflexivity |].
  cbn [inject map fst snd jwhen whenProp] in *.
  destruct (k' =? k)%string; [| exact IH].
  destruct x as [[| c s] | es']; reflexivity.
Qed.

Lemma whenProp_ext {A : Type} (k : string) (f g : value -> A) (d : A)
      (v : value) :
  (forall x, get k v = Some x -> f x = g x) ->
  whenProp k f d v = whenProp k g d v.
Proof.
  intros H. rewrite !whenProp_get.
  destruct (get k v) as [[[| c s] | es] |]; try reflexivity; apply H;
    reflexivity.
Qed.

Lemma jcharEntries_inject (s : string) :
  forall i,
    jcharEntries i s
    = map (fun e => (fst e, inject (snd e))) (charEntries i s).
Proof.
  induction s as [| c s IH]; intros i; [reflexivity |].
  cbn [jcharEntries charEntries map fst snd inject]. rewrite IH.
  reflexivity.
Qed.

Lemma jentries_inject (v : value) :
  jentries (inject v) = map (fun e => (fst e, inject (snd e))) (entries v).
Proof. destruct v; [apply jcharEntries_inject | reflexivity]. Qed.

Section Agreement.
Variable chalk : Chalk.
Variable readManifest : string -> option value.

Local Abbreviation manifestJ :=
  (fun name => option_map inject (readManifest name)).
Local Abbreviation jprint := (jprintDependencyTree chalk manifestJ).
Local Abbreviation print := (printDependencyTree chalk readManifest).

Lemma jnodeLine_inject indent name info :
  jnodeLine chalk indent name (inject info)
  = nodeLine chalk indent name info.
Proof.
  unfold jnodeLine, nodeLine, jversionOf, versionOf.
  rewrite jwhen_inject.
  rewrite (whenProp_ext _ _ toString) by (intros; apply jshow_inject).
  reflexivity.
Qed.

Lemma jpeerLines_inject indent name :
  jpeerLines chalk manifestJ indent name
  = peerLines chalk readManifest indent name.
Proof.
  unfold jpeerLines, peerLines.
  destruct (readManifest name) as [depPackage |]; [| reflexivity].
  cbn [option_map]. rewrite jwhen_inject. apply whenProp_ext.
  intros peers _. rewrite jentries_inject, map_map. apply map_ext.
  intros [peer range]. cbn [fst snd jpeerLine peerLine].
  rewrite jshow_inject. reflexivity.
Qed.

Lemma jprintEntry_inject (self : value -> nat -> list string)
      (selfJ : json -> nat -> M unit) (level : nat) (name : string)
      (info : value) :
  (forall l, selfJ (inject info) l = (Returns tt, map Log (self info l))) ->
  (forall d l, get "dependencies" info = Some d ->
               selfJ (inject d) l = (Returns tt, map Log (self d l))) ->
  jprintEntry chalk manifestJ selfJ level (name, inject info)
  = (Returns tt,
     map Log (printEntry chalk readManifest self level (name, info))).
Proof.
  intros Hw Hd. unfold jprintEntry, printEntry.
  destruct (name =? "dependencies")%string; [apply Hw |].
  assert (B : emit (Log (jnodeLine chalk (indentOf level) name (inject info)))
              ;;; emitAll (map Log (jpeerLines chalk manifestJ
                                               (indentOf level) name))
              ;;; jwhen "dependencies"
                    (fun d => selfJ d (level + 1)%nat) (ret tt) (inject info)
              = (Returns tt,
                 map Log
                   (nodeLine chalk (indentOf level) name info
                      :: peerLines chalk readManifest (indentOf level) name
                      ++ whenProp "dependencies"
                           (fun d => self d (level + 1)%nat) [] info))).
  { rewrite jnodeLine_inject, jpeerLines_inject, emitAll_events.
    rewrite jwhen_inject, !whenProp_get.
    cbn [emit bind app map].
    destruct (get "dependencies" info) as [d |] eqn:G.
    - destruct d as [[| c s] | es'].
      + cbn [ret]. rewrite map_app. cbn [map]. rewrite ?app_nil_r.
        reflexivity.
      + rewrite (Hd _ _ eq_refl). rewrite map_app. reflexivity.
      + rewrite (Hd _ _ eq_refl). rewrite map_app. reflexivity.
    - cbn [ret]. rewrite map_app. cbn [map]. rewrite ?app_nil_r.
      reflexivity. }
  destruct info as [s | es]; exact B.
Qed.
Lemma forEach_inject (f : string * json -> M unit)
      (h : string * value -> list string) (l : list (string * value)) :
  Forall (fun e => f (fst e, inject (snd e)) = (Returns tt, map Log (h e)))
         l ->
  forEach f (map (fun e => (fst e, inject (snd e))) l)
  = (Returns tt, map Log (flat_map h l)).
Proof.
  induction 1 as [| e l He _ IH]; [reflexivity |].
  cbn [map forEach flat_map]. rewrite He, IH. cbn [bind].
  rewrite map_app. reflexivity.
Qed.

(** On the string and object fragment the two renderers print the same
    lines, and the one with exceptions raises none. *)
Lemma jprint_inject (v : value) :
  forall level,
    jprint (inject v) level = (Returns tt, map Log (print v level)).
Proof.
  apply (deeply_here
           (fun v => forall level,
                jprint (inject v) level
                = (Returns tt, map Log (print v level)))).
  revert v. apply deeply_all.
  - intros s level. cbn [inject jprintDependencyTree printDependencyTree].
    rewrite jcharEntries_inject. apply forEach_inject.
    apply Forall_forall. intros [name info] _. cbn [fst snd].
    apply jprintEntry_inject; reflexivity.
  - intros es D level. cbn [inject jprintDependencyTree printDependencyTree].
    apply forEach_inject. rewrite Forall_forall in D |- *.
    intros [name info] I. cbn [fst snd]. specialize (D _ I). cbn [snd] in D.
    apply jprintEntry_inject.
    + intros l. apply (deeply_here _ _ D).
    + intros d l G. destruct info as [s | es']; [discriminate G |].
      apply get_in in G.
      apply (deeply_here _ _ (deeply_below _ _ _ D G)).
Qed.
End Agreement.

Section JsonInd.
Variable P : json -> Prop.
Hypothesis HNull : P JNull.
Hypothesis HBool : forall b, P (JBool b).
Hypothesis HNum : forall shown nonzero, P (JNum shown nonzero).
Hypothesis HStr : forall s, P (JStr s).
Hypothesis HArr : forall items, Forall P items -> P (JArr items).
Hypothesis HObj :
  forall fields, Forall (fun e => P (snd e)) fields -> P (JObj fields).

End JsonInd.









Section NullFree.
Variable chalk : Chalk.
Variable readManifestJ : string -> option json.

Local Abbreviation jprint := (jprintDependencyTree chalk readManifestJ).


End NullFree.

(** C9 fails on the code: a [null] in the place of a package makes
    [info.version] throw a [TypeError] that nothing catches; the packages
    before it are printed, those after it are not.  A [null] in the place
    of the [dependencies] of the root makes [Object.entries] throw. *)
Theorem visualizeTree_null_entry_raises :
  jvisualizeTree plain (fun _ => None) jdemoManifest nullEntryTree
  = (Throws (typeError "Cannot read properties of null (reading 'version')"),
     [Log ("Visualizing dependency tree..." ++ nl)%string;
      Log "demo@0.1.0"; Log "a@1.0.0"])
  /\ jvisualizeTree plain (fun _ => None) jdemoManifest
                    (JObj [("name", JStr "demo"); ("dependencies", JNull)])
     = (Throws (typeError "Cannot convert undefined or null to object"),
        [Log ("Visualizing dependency tree..." ++ nl)%string;
         Log "demo@0.1.0"; Log "name@unknown"]).
Proof. split; reflexivity. Qed.


